(** * AirTrafficMap: the radar script [src/app/script.js]

    A shallow embedding of the refresh pipeline and of the inspection
    popup of the aircraft radar, together with the properties of its
    specification.

    - [JS]: the fragment of ECMAScript the script relies on (values of a
      parsed JSON payload, truthiness, numeric coercion, [ToInt32],
      property access);
    - [Radar]: the functions of the script, in source order, over an explicit
      record of the page state, and the event loop that runs its callbacks;
    - the vocabulary the properties are stated in (the gate of the parser,
      the selection, the phases of the refresh chain);
    - the properties, each with the lemmas it rests on. *)

From Stdlib Require Import ZArith List String Ascii Bool Floats Lia.
From Stdlib Require Import DecimalString.
Import ListNotations.

#[local] Set Warnings "-register-all".
Local Open Scope Z_scope.

(** ** Results of fallible evaluation

    A JavaScript expression either yields a value or throws.  The only
    exception the script can raise by itself is a [TypeError]; a rejected
    request carries a [NetworkError], or a [SyntaxError] when the body is
    not JSON. *)

Inductive Exn : Type :=
| TypeError
| SyntaxError
| NetworkError.

Inductive Result (A : Type) : Type :=
| Ok (a : A)
| Throw (e : Exn).

Arguments Ok {A} a.
Arguments Throw {A} e.

Definition bind {A B : Type} (r : Result A) (k : A -> Result B) : Result B :=
  match r with
  | Ok a => k a
  | Throw e => Throw e
  end.

Notation "'let*' x ':=' r 'in' k" := (bind r (fun x => k))
  (at level 10, x name, r at level 100, k at level 200).

Definition succeeds {A : Type} (r : Result A) : bool :=
  match r with Ok _ => true | Throw _ => false end.

(** ** The ECMAScript fragment *)

Module JS.

(** Values that [response.json()] can produce, plus [undefined], which
    arises from reading an index or a property that is not there.  A string
    is a sequence of code units; the embedding covers the code units below
    256.  An object lists its own properties, most recent definition first. *)

Inductive Value : Type :=
| Undefined
| Null
| Boolean (b : bool)
| Number (n : float)
| String (s : string)
| Array (elems : list Value)
| Object (props : list (string * Value)).

(** [ToBoolean]: the falsy values are [undefined], [null], [false], [+0],
    [-0], [NaN] and the empty string. *)

Definition ToBoolean (v : Value) : bool :=
  match v with
  | Undefined | Null => false
  | Boolean b => b
  | Number n => negb (is_zero n || is_nan n)
  | String s => negb (String.eqb s EmptyString)
  | Array _ | Object _ => true
  end.

(** *** [StringToNumber]

    The StringNumericLiteral grammar: optional white space around either a
    signed decimal literal (digits, fraction, exponent, or [Infinity]) or an
    unsigned binary, octal or hexadecimal integer literal.  The empty
    string is [+0]; anything outside the grammar is [NaN].  The mathematical
    value is rounded to the nearest double, ties to even. *)

Definition is_white_space (c : ascii) : bool :=
  let n := N_of_ascii c in
  ((9 <=? n) && (n <=? 13) || (n =? 32) || (n =? 160))%N.

Fixpoint trim_left (s : string) : string :=
  match s with
  | String.String c s' => if is_white_space c then trim_left s' else s
  | EmptyString => s
  end.

Fixpoint rev_string (acc s : string) : string :=
  match s with
  | EmptyString => acc
  | String.String c s' => rev_string (String.String c acc) s'
  end.

Definition trim (s : string) : string :=
  rev_string EmptyString (trim_left (rev_string EmptyString (trim_left s))).

(** Value of a digit in the given radix, when it is one. *)
Definition digit_value (radix : Z) (c : ascii) : option Z :=
  let n := Z.of_N (N_of_ascii c) in
  let d :=
    if (48 <=? n) && (n <=? 57) then n - 48
    else if (97 <=? n) && (n <=? 102) then n - 87
    else if (65 <=? n) && (n <=? 70) then n - 55
    else radix in
  if d <? radix then Some d else None.

(** Longest prefix of digits: its value continuing from [acc], how many
    digits were consumed, and what follows. *)
Fixpoint digits (radix : Z) (acc : Z) (count : Z) (s : string) : Z * Z * string :=
  match s with
  | String.String c s' =>
      match digit_value radix c with
      | Some d => digits radix (acc * radix + d) (count + 1) s'
      | None => (acc, count, s)
      end
  | EmptyString => (acc, count, s)
  end.

(** The double nearest to [m * 10^e], for [m >= 0]. *)
Definition round_decimal (m e : Z) : spec_float :=
  match m with
  | Zpos p =>
      match e with
      | Zneg k => SFdiv prec emax (S754_finite false p 0)
                        (S754_finite false (Pos.pow 10 k) 0)
      | _ => binary_normalize prec emax (m * 10 ^ e) 0 false
      end
  | _ => S754_zero false
  end.

Definition signed (negative : bool) (x : spec_float) : float :=
  SF2Prim (if negative then SFopp x else x).

(** ExponentPart, optional: the exponent and what follows it; [None] when an
    exponent indicator is not followed by a signed integer. *)
Definition exponent_part (s : string) : option (Z * string) :=
  match s with
  | String.String c s' =>
      if (Ascii.eqb c "e" || Ascii.eqb c "E")%char then
        let '(neg, s'') :=
          match s' with
          | String.String c' t =>
              if Ascii.eqb c' "-"%char then (true, t)
              else if Ascii.eqb c' "+"%char then (false, t)
              else (false, s')
          | EmptyString => (false, s')
          end in
        let '(v, n, rest) := digits 10 0 0 s'' in
        if n =? 0 then None else Some (if neg then - v else v, rest)
      else Some (0, s)
  | EmptyString => Some (0, s)
  end.

(** StrUnsignedDecimalLiteral other than [Infinity]. *)
Definition unsigned_decimal (negative : bool) (s : string) : float :=
  let '(int, n_int, after_int) := digits 10 0 0 s in
  let '(mant, n_frac, after_frac, dotted) :=
    match after_int with
    | String.String c t =>
        if Ascii.eqb c "."%char
        then let '(m, n, rest) := digits 10 int 0 t in (m, n, rest, true)
        else (int, 0, after_int, false)
    | EmptyString => (int, 0, after_int, false)
    end in
  if (n_int =? 0) && (negb dotted || (n_frac =? 0)) then nan
  else
    match exponent_part after_frac with
    | Some (e, EmptyString) => signed negative (round_decimal mant (e - n_frac))
    | _ => nan
    end.

Definition str_decimal (negative : bool) (s : string) : float :=
  if String.eqb s "Infinity" then (if negative then neg_infinity else infinity)
  else unsigned_decimal negative s.

Definition non_decimal (radix : Z) (s : string) : float :=
  let '(v, n, rest) := digits radix 0 0 s in
  match rest with
  | EmptyString => if n =? 0 then nan else signed false (round_decimal v 0)
  | _ => nan
  end.

Definition StringToNumber (s : string) : float :=
  match trim s with
  | EmptyString => zero
  | String.String c t =>
      if Ascii.eqb c "+"%char then str_decimal false t
      else if Ascii.eqb c "-"%char then str_decimal true t
      else
        match c, t with
        | "0"%char, String.String x u =>
            if (Ascii.eqb x "x" || Ascii.eqb x "X")%char then non_decimal 16 u
            else if (Ascii.eqb x "o" || Ascii.eqb x "O")%char then non_decimal 8 u
            else if (Ascii.eqb x "b" || Ascii.eqb x "B")%char then non_decimal 2 u
            else str_decimal false (String.String c t)
        | _, _ => str_decimal false (String.String c t)
        end
  end.

(** *** Coercion of objects: [ToPrimitive]

    An object or an array becomes a primitive through its [valueOf] and
    [toString] methods.  For the values of a parsed payload [valueOf]
    never yields a primitive, so the outcome rests on [toString]:

    - a plain object prints as [[object Object]], unless it has an own
      property named [toString]: that property holds no function, is
      skipped, and the coercion throws a [TypeError];
    - an array prints its elements joined by commas, where [null] and
      [undefined] print as nothing and each other element is printed in
      turn, so the coercion throws when printing an element throws.

    [printable v] says that [ToString v] returns. *)

Definition has_own (name : string) (props : list (string * Value)) : bool :=
  existsb (fun p => String.eqb (fst p) name) props.

Fixpoint printable (v : Value) : bool :=
  match v with
  | Object props => negb (has_own "toString" props)
  | Array elems => forallb printable elems
  | _ => true
  end.

(** The number that the text of a printable array or object reads as: a
    number prints as the shortest text that reads back as itself ([-0]
    prints as [0]), and a text with a comma, [true], [false] and
    [[object Object]] are no numeric literals. *)
Fixpoint read_back (v : Value) : float :=
  match v with
  | Array [] => zero
  | Array [x] =>
      match x with
      | Undefined | Null => zero
      | Boolean _ => nan
      | Number n => if is_zero n then zero else n
      | String s => StringToNumber s
      | _ => read_back x
      end
  | _ => nan
  end.

(** *** [ToNumber] and [ToString] *)

Definition ToNumber (v : Value) : Result float :=
  match v with
  | Undefined => Ok nan
  | Null => Ok zero
  | Boolean b => Ok (if b then one else zero)
  | Number n => Ok n
  | String s => Ok (StringToNumber s)
  | Array _ | Object _ =>
      if printable v then Ok (read_back v) else Throw TypeError
  end.

(** [ToString], as far as the script depends on it: whether it returns.
    The value stands for its text. *)
Definition ToString (v : Value) : Result Value :=
  if printable v then Ok v else Throw TypeError.

(** *** Integer conversion

    [floor x] is the greatest integer not above the real number that a finite
    double [x = (-1)^s * m * 2^e] denotes, and [truncate x] drops its
    fraction; both are given the value 0 on [NaN] and the infinities, where
    no real number is denoted. *)

Definition SFfloor (x : spec_float) : Z :=
  match x with
  | S754_finite s m e =>
      (cond_Zopp s (Zpos m) * 2 ^ Z.max 0 e) / 2 ^ Z.max 0 (- e)
  | _ => 0
  end.

Definition SFtruncate (x : spec_float) : Z :=
  match x with
  | S754_finite s m e =>
      (cond_Zopp s (Zpos m) * 2 ^ Z.max 0 e) ÷ 2 ^ Z.max 0 (- e)
  | _ => 0
  end.

Definition floor (x : float) : Z := SFfloor (Prim2SF x).
Definition truncate (x : float) : Z := SFtruncate (Prim2SF x).

(** [ToInt32]: zero for a number that is not finite, else the truncated
    value modulo [2^32], read as a signed 32-bit integer. *)

Definition int32 (z : Z) : Z :=
  let i := z mod 2 ^ 32 in
  if 2 ^ 31 <=? i then i - 2 ^ 32 else i.

Definition ToInt32 (x : float) : Z := int32 (truncate x).

(** The Number nearest to an integer: the integer itself when it has at
    most 53 significant bits, as every 32-bit integer and every [floor x]
    has. *)
Definition of_Z (z : Z) : float := SF2Prim (binary_normalize prec emax z 0 false).

(** [a | b] on Numbers. *)
Definition bitor (a b : float) : float :=
  of_Z (Z.lor (ToInt32 a) (ToInt32 b)).

(** [Math.abs] and [Math.PI]. *)
Definition Math_abs (v : Value) : Result float :=
  let* n := ToNumber v in Ok (abs n).
Definition Math_PI : float := 0x1.921fb54442d18p+1%float.

(** *** Property access

    [v[i]] for an array index [i], and [v.name] for a name that is not an
    index.  Reading from [undefined] or [null] throws; a primitive without
    the property, and an index or name that is absent, give [undefined]. *)

Fixpoint lookup (key : string) (props : list (string * Value)) : Value :=
  match props with
  | [] => Undefined
  | (k, v) :: rest => if String.eqb k key then v else lookup key rest
  end.

Definition index_key (i : nat) : string :=
  NilZero.string_of_uint (Nat.to_uint i).

Definition GetIndex (v : Value) (i : nat) : Result Value :=
  match v with
  | Undefined | Null => Throw TypeError
  | Array elems => Ok (nth i elems Undefined)
  | String s =>
      Ok match String.get i s with
         | Some c => String (String.String c EmptyString)
         | None => Undefined
         end
  | Object props => Ok (lookup (index_key i) props)
  | Boolean _ | Number _ => Ok Undefined
  end.

Definition GetNamed (v : Value) (name : string) : Result Value :=
  match v with
  | Undefined | Null => Throw TypeError
  | Object props => Ok (lookup name props)
  | _ => Ok Undefined
  end.

End JS.

(** ** The radar script *)

Module Radar.
Import JS.

Local Open Scope string_scope.

Definition USER_IP_DATA_URL : string := "https://api.ipdata.co/?api-key=test".
Definition openSky : string := "https://opensky-network.org/api/states/all".
Definition AIR_DATA_URL : string := openSky.

(** Refresh rate of the map, in milliseconds. *)
Definition AUTOREFRESH : Z := 5000.

(** *** Page state *)

(** A map coordinate, as the map library hands it to the click handler. *)
Definition Coordinate : Type := float * float.

(** An [ol.Feature] built by [createPlaneIcon]: the [[lon, lat]] pair given
    to [ol.proj.fromLonLat] for its point geometry, the rotation of its
    icon style, and the [airplaneData] property the script attaches. *)
Record Feature : Type := {
  lonLat : float * float;
  rotation : float;
  airplaneData : Value
}.

(** An [ol.layer.Vector]; [layerRef] stands for the identity of the object. *)
Record Layer : Type := {
  layerRef : nat;
  features : list Feature
}.

(** The rows of the popup body: a label and the value printed after it. *)
Definition PopupContent : Type := list (string * Value).

Record Loader : Type := {
  message : string;
  invisible : bool;
  hidden : bool
}.

(** Callbacks waiting on the event loop.  A refresh timer and a later
    telemetry request carry the [flightDataOverlay] their closure captured;
    the first telemetry request belongs to the startup promise chain. *)
Inductive Timer : Type :=
| RefreshTimer (flightDataOverlay : Layer)
| LoaderTimer.

Inductive Request : Type :=
| IpRequest
| FirstAirRequest
| AirRequest (flightDataOverlay : Layer).

(** Calls on the network and on the layer collection of the map, as they
    happen. *)
Inductive Call : Type :=
| HttpGet (url : string)
| RemoveLayer (layer : option Layer)
| AddLayer (layer : Layer).

Record World : Type := {
  view : option (Value * Value);        (* [map]: centre [lon, lat]; [None] while undefined *)
  layers : list Layer;                  (* vector layers on the map *)
  overlayPosition : option Coordinate;  (* [popupOverlay] position; [None] is undefined: hidden *)
  popupBody : PopupContent;             (* [popupBody.innerHTML] *)
  closerFocused : bool;
  cursor : string;
  loader : Loader;
  timers : list (Z * Timer);            (* pending timeouts: delay and callback *)
  requests : list Request;
  fresh : nat;                          (* next layer identity *)
  calls : list Call;                    (* oldest first *)
  console : list Exn
}.

Definition with_view v (w : World) : World :=
  Build_World v (layers w) (overlayPosition w) (popupBody w) (closerFocused w)
    (cursor w) (loader w) (timers w) (requests w) (fresh w) (calls w) (console w).
Definition with_layers l (w : World) : World :=
  Build_World (view w) l (overlayPosition w) (popupBody w) (closerFocused w)
    (cursor w) (loader w) (timers w) (requests w) (fresh w) (calls w) (console w).
Definition with_overlayPosition p (w : World) : World :=
  Build_World (view w) (layers w) p (popupBody w) (closerFocused w)
    (cursor w) (loader w) (timers w) (requests w) (fresh w) (calls w) (console w).
Definition with_popupBody b (w : World) : World :=
  Build_World (view w) (layers w) (overlayPosition w) b (closerFocused w)
    (cursor w) (loader w) (timers w) (requests w) (fresh w) (calls w) (console w).
Definition with_closerFocused f (w : World) : World :=
  Build_World (view w) (layers w) (overlayPosition w) (popupBody w) f
    (cursor w) (loader w) (timers w) (requests w) (fresh w) (calls w) (console w).
Definition with_cursor c (w : World) : World :=
  Build_World (view w) (layers w) (overlayPosition w) (popupBody w) (closerFocused w)
    c (loader w) (timers w) (requests w) (fresh w) (calls w) (console w).
Definition with_loader l (w : World) : World :=
  Build_World (view w) (layers w) (overlayPosition w) (popupBody w) (closerFocused w)
    (cursor w) l (timers w) (requests w) (fresh w) (calls w) (console w).
Definition with_timers t (w : World) : World :=
  Build_World (view w) (layers w) (overlayPosition w) (popupBody w) (closerFocused w)
    (cursor w) (loader w) t (requests w) (fresh w) (calls w) (console w).
Definition with_requests r (w : World) : World :=
  Build_World (view w) (layers w) (overlayPosition w) (popupBody w) (closerFocused w)
    (cursor w) (loader w) (timers w) r (fresh w) (calls w) (console w).
Definition with_fresh n (w : World) : World :=
  Build_World (view w) (layers w) (overlayPosition w) (popupBody w) (closerFocused w)
    (cursor w) (loader w) (timers w) (requests w) n (calls w) (console w).
Definition with_calls c (w : World) : World :=
  Build_World (view w) (layers w) (overlayPosition w) (popupBody w) (closerFocused w)
    (cursor w) (loader w) (timers w) (requests w) (fresh w) c (console w).
Definition with_console c (w : World) : World :=
  Build_World (view w) (layers w) (overlayPosition w) (popupBody w) (closerFocused w)
    (cursor w) (loader w) (timers w) (requests w) (fresh w) (calls w) c.

(** *** Host operations *)

(** [get(URL)]: issues the request; [k] is what waits for its response. *)
Definition get (URL : string) (k : Request) (w : World) : World :=
  with_requests (requests w ++ [k]) (with_calls (calls w ++ [HttpGet URL]) w).

Definition setTimeout (t : Timer) (ms : Z) (w : World) : World :=
  with_timers (timers w ++ [(ms, t)]) w.

Definition same_layer (a b : Layer) : bool := Nat.eqb (layerRef a) (layerRef b).

Fixpoint remove_layer (l : Layer) (ls : list Layer) : list Layer :=
  match ls with
  | [] => []
  | x :: rest => if same_layer x l then rest else x :: remove_layer l rest
  end.

(** [map.removeLayer] and [map.addLayer]; removing [undefined], or a layer
    that is not on the map, changes nothing. *)
Definition removeLayer (layer : option Layer) (w : World) : World :=
  let kept :=
    match layer with
    | Some l => remove_layer l (layers w)
    | None => layers w
    end in
  with_layers kept (with_calls (calls w ++ [RemoveLayer layer]) w).

Definition addLayer (layer : Layer) (w : World) : World :=
  with_layers (layers w ++ [layer]) (with_calls (calls w ++ [AddLayer layer]) w).

(** *** The functions of the script *)

Definition getUserCoordinates (geoIpData : Value) : Result (Value * Value) :=
  let* lat := GetNamed geoIpData "latitude" in
  let* lon := GetNamed geoIpData "longitude" in
  Ok (lon, lat).

(** Creates the overlay (no position yet) and the map centred on [coords];
    the handlers it registers are [click], [pointermove] and [closeClick]
    below. *)
Definition drawInitialMap (coords : Value * Value) (w : World) : World :=
  with_view (Some coords) (with_overlayPosition None w).

Definition setPopupContent (airplaneData : Value) (w : World) : Result unit * World :=
  match
    (let* callsign := GetIndex airplaneData 1 in
     let* callsign := ToString callsign in
     let* from := GetIndex airplaneData 2 in
     let* from := ToString from in
     let* latitude := GetIndex airplaneData 5 in
     let* latitude := ToString latitude in
     let* longitude := GetIndex airplaneData 6 in
     let* longitude := ToString longitude in
     Ok [("Callsign", callsign); ("From", from);
         ("Latitude", latitude); ("Longitude", longitude)])
  with
  | Ok rows => (Ok tt, with_popupBody rows w)
  | Throw e => (Throw e, w)
  end.

(** The click handler.  [icon] is what [map.getFeaturesAtPixel(e.pixel)]
    returned: [None] is [null], nothing under the pointer. *)
Definition click (icon : option (list Feature)) (coordinate : Coordinate)
    (w : World) : Result unit * World :=
  match icon with
  | None => (Ok tt, with_overlayPosition None w)
  | Some found =>
      let plane := nth_error found 0 in
      let w := with_overlayPosition (Some coordinate) w in
      match plane with
      | Some plane => setPopupContent (airplaneData plane) w
      | None => (Throw TypeError, w)
      end
  end.

(** The pointer-move handler; [showPointer] is [map.hasFeatureAtPixel]. *)
Definition pointermove (showPointer : bool) (w : World) : World :=
  with_cursor (if showPointer then "pointer" else "auto") w.

(** [closePopupButton.onclick]. *)
Definition closeClick (w : World) : World :=
  with_closerFocused false (with_overlayPosition None w).

Definition createPlaneIcon (coords : float * float) (rotation : float) : Feature :=
  {| lonLat := coords; rotation := rotation; airplaneData := Undefined |}.

Definition decimalDegreesToRadians (dd : Value) : Result float :=
  let* absDd := Math_abs dd in
  let deg := bitor absDd zero in
  Ok (deg * (Math_PI / 180))%float.

(** The body of the callback given to [forEach], up to the [push]: the
    marker for one state, or nothing when the callback returns early. *)
Definition planeIconOf (state : Value) : Result (option Feature) :=
  let* lon := GetIndex state 5 in
  let* lat := GetIndex state 6 in
  let* rotation := GetIndex state 10 in
  if negb (ToBoolean lat) || negb (ToBoolean lon) || negb (ToBoolean rotation)
  then Ok None
  else
    let* lon := ToNumber lon in
    let* lat := ToNumber lat in
    let* rotation := decimalDegreesToRadians rotation in
    let planeIcon := createPlaneIcon (lon, lat) rotation in
    Ok (Some {| lonLat := lonLat planeIcon;
                rotation := Radar.rotation planeIcon;
                airplaneData := state |}).

(** [states.forEach(...)] with the [push] into [airplaneMarkers]; an
    exception in the callback ends the loop. *)
Fixpoint forEach (states : list Value) (airplaneMarkers : list Feature)
    : Result (list Feature) :=
  match states with
  | [] => Ok airplaneMarkers
  | state :: rest =>
      let* planeIcon := planeIconOf state in
      forEach rest
        match planeIcon with
        | Some icon => airplaneMarkers ++ [icon]
        | None => airplaneMarkers
        end
  end.

Definition getAirplaneMarkers (flightData : Value) : Result (list Feature) :=
  let* states := GetNamed flightData "states" in
  match states with
  | Array elems => forEach elems []
  | _ => Throw TypeError
  end.

Definition getFlightDataOverlay (airplaneMarkers : list Feature) (w : World)
    : Layer * World :=
  ({| layerRef := fresh w; features := airplaneMarkers |},
   with_fresh (S (fresh w)) w).

Definition showLoader (msg : string) (w : World) : World :=
  with_loader {| message := msg; invisible := invisible (loader w);
                 hidden := hidden (loader w) |} w.

Definition hideLoader (w : World) : World :=
  setTimeout LoaderTimer 2000
    (with_loader {| message := message (loader w); invisible := true;
                    hidden := hidden (loader w) |} w).

Definition processAirTrafficData (flightData : Value) (oldDataLayer : option Layer)
    (w : World) : Result unit * World :=
  let w := hideLoader w in
  match getAirplaneMarkers flightData with
  | Throw e => (Throw e, w)
  | Ok airplaneMarkers =>
      let '(flightDataOverlay, w) := getFlightDataOverlay airplaneMarkers w in
      match view w with
      | None => (Throw TypeError, w)
      | Some _ =>
          let w := removeLayer oldDataLayer w in
          let w := addLayer flightDataOverlay w in
          (Ok tt, setTimeout (RefreshTimer flightDataOverlay) AUTOREFRESH w)
      end
  end.

(** *** The event loop *)

(** The page before the script runs, and after its body has run:
    [showLoader] and the first [get] of the startup chain. *)
Definition blank : World :=
  {| view := None; layers := []; overlayPosition := None; popupBody := [];
     closerFocused := false; cursor := "";
     loader := {| message := ""; invisible := false; hidden := false |};
     timers := []; requests := []; fresh := 0; calls := []; console := [] |}.

Definition startup : World :=
  get USER_IP_DATA_URL IpRequest (showLoader "Gettin your IP address" blank).

Inductive Event : Type :=
| Settle (i : nat) (r : Result Value)   (* the i-th outstanding request settles *)
| Fire (i : nat)                        (* the i-th pending timer fires *)
| Click (icon : option (list Feature)) (coordinate : Coordinate)
| PointerMove (showPointer : bool)
| CloseClick.

Fixpoint remove_nth {A : Type} (i : nat) (l : list A) : list A :=
  match l, i with
  | [], _ => []
  | _ :: rest, O => rest
  | x :: rest, S j => x :: remove_nth j rest
  end.

(** [.catch(e => console.log(e))] at the end of the startup chain. *)
Definition catch (r : Result unit * World) : World :=
  match r with
  | (Ok _, w) => w
  | (Throw e, w) => with_console (console w ++ [e]) w
  end.

(** A rejection nobody handles. *)
Definition unhandled (r : Result unit * World) : World := snd r.

(** The continuation of a request, run on its response. *)
Definition settle (k : Request) (r : Result Value) (w : World) : World :=
  match k with
  | IpRequest =>
      catch
        match r with
        | Throw e => (Throw e, w)
        | Ok geoIpData =>
            match getUserCoordinates geoIpData with
            | Throw e => (Throw e, w)
            | Ok coords =>
                let w := drawInitialMap coords w in
                let w := showLoader "Getting airplane data" w in
                (Ok tt, get AIR_DATA_URL FirstAirRequest w)
            end
        end
  | FirstAirRequest =>
      catch
        match r with
        | Throw e => (Throw e, w)
        | Ok data => processAirTrafficData data None w
        end
  | AirRequest flightDataOverlay =>
      unhandled
        match r with
        | Throw e => (Throw e, w)
        | Ok data => processAirTrafficData data (Some flightDataOverlay) w
        end
  end.

Definition fire (t : Timer) (w : World) : World :=
  match t with
  | RefreshTimer flightDataOverlay =>
      get AIR_DATA_URL (AirRequest flightDataOverlay) w
  | LoaderTimer =>
      with_loader {| message := message (loader w);
                     invisible := invisible (loader w); hidden := true |} w
  end.

(** One turn of the event loop; [None] when the event cannot occur: no
    such request or timer, or a pointer event before [drawInitialMap] has
    registered the handlers. *)
Definition step (w : World) (ev : Event) : option World :=
  match ev with
  | Settle i r =>
      match nth_error (requests w) i with
      | Some k => Some (settle k r (with_requests (remove_nth i (requests w)) w))
      | None => None
      end
  | Fire i =>
      match nth_error (timers w) i with
      | Some (_, t) =>
          Some (fire t (with_timers (remove_nth i (timers w)) w))
      | None => None
      end
  | Click icon coordinate =>
      match view w with
      | Some _ => Some (snd (click icon coordinate w))
      | None => None
      end
  | PointerMove showPointer =>
      match view w with
      | Some _ => Some (pointermove showPointer w)
      | None => None
      end
  | CloseClick =>
      match view w with
      | Some _ => Some (closeClick w)
      | None => None
      end
  end.

Fixpoint run (w : World) (evs : list Event) : option World :=
  match evs with
  | [] => Some w
  | ev :: rest =>
      match step w ev with
      | Some w' => run w' rest
      | None => None
      end
  end.

End Radar.

(** * Vocabulary of the specification *)

Import JS Radar.

(** ** Sample inputs *)

(** A raw state vector in the layout of the specification's scenario. *)
Definition scenario (lon lat heading : Value) : list Value :=
  [Null; String "ABC123"%string; String "USA"%string; Null; Null; lon; lat;
   Null; Null; Null; heading].

(** Sample responses. *)
Definition geo : Value :=
  Object [("latitude"%string, Number 44.5);
          ("longitude"%string, Number 20.5)].

Definition payload (states : list (list Value)) : Value :=
  Object [("time"%string, Number 1);
          ("states"%string, Array (map Array states))].

(** Two cycles: the second replaces the layer of the first. *)
Definition first_cycle : list Event :=
  [Settle 0 (Ok geo);
   Settle 0
     (Ok (payload [scenario (Number 10.5) (Number 20.25) (Number 45.5)]))].

Definition second_fetch : list Event := first_cycle ++ [Fire 1].

Definition second_payload : Value :=
  payload [scenario (Number 11.5) (Number 21.25) (Number 90)].

(** The value of the payload text [{"toString": 1}]: an object whose
    coercion to a number or to a string throws. *)
Definition unprintable : Value := Object [("toString"%string, Number 1)].

(** A payload whose one record passes the gate and then makes
    [Number(lon)] throw. *)
Definition bad_payload : Value :=
  payload [scenario unprintable (Number 20.25) (Number 45.5)].

(** ** Entities and the selection *)

(** The gate of the callback, on a state that is an array: some of the
    three fields is falsy. *)
Definition rejected (state : list Value) : bool :=
  negb (ToBoolean (nth 6 state Undefined))
  || negb (ToBoolean (nth 5 state Undefined))
  || negb (ToBoolean (nth 10 state Undefined)).

Definition accepted (state : list Value) : bool := negb (rejected state).

(** The three coercions of the callback return: [Number(lon)],
    [Number(lat)] and [Math.abs(rotation)]. *)
Definition coerces (state : list Value) : bool :=
  printable (nth 5 state Undefined)
  && printable (nth 6 state Undefined)
  && printable (nth 10 state Undefined).

(** The number a coercion gave, where it returned. *)
Definition returned (r : Result float) : float :=
  match r with
  | Ok n => n
  | Throw _ => nan
  end.

(** The entity of an accepted state vector whose fields coerce. *)
Definition entity (state : list Value) : Feature :=
  {| lonLat := (returned (ToNumber (nth 5 state Undefined)),
                returned (ToNumber (nth 6 state Undefined)));
     rotation := returned (decimalDegreesToRadians (nth 10 state Undefined));
     airplaneData := Array state |}.

(** Following the specification's words: a field is not numeric after
    coercion, and a record is invalid when its latitude, longitude or
    heading is missing, falsy, or not numeric after coercion. *)
Definition non_numeric (v : Value) : bool :=
  match ToNumber v with
  | Ok n => is_nan n
  | Throw _ => true
  end.

Definition invalid_by_spec (state : list Value) : bool :=
  rejected state
  || non_numeric (nth 5 state Undefined)
  || non_numeric (nth 6 state Undefined)
  || non_numeric (nth 10 state Undefined).

(** What the gate guarantees of an entity, whatever the raw record is. *)
Definition passed_gate (icon : Feature) : Prop :=
  exists lon lat heading,
    GetIndex (airplaneData icon) 5 = Ok lon
    /\ GetIndex (airplaneData icon) 6 = Ok lat
    /\ GetIndex (airplaneData icon) 10 = Ok heading
    /\ ToBoolean lon = true /\ ToBoolean lat = true
    /\ ToBoolean heading = true
    /\ ToNumber lon = Ok (fst (lonLat icon))
    /\ ToNumber lat = Ok (snd (lonLat icon))
    /\ decimalDegreesToRadians heading = Ok (rotation icon)
    /\ (forall n, lon = Number n ->
          fst (lonLat icon) = n /\ is_nan n = false /\ is_zero n = false)
    /\ (forall n, lat = Number n ->
          snd (lonLat icon) = n /\ is_nan n = false /\ is_zero n = false).

Definition rendered_passed_gate (w : World) : Prop :=
  Forall (fun layer => Forall passed_gate (features layer)) (layers w).

(** The selection, as far as the page records one: what the popup shows
    while the overlay has a position. *)
Definition InspectionState (w : World) : option PopupContent :=
  match overlayPosition w with
  | Some _ => Some (popupBody w)
  | None => None
  end.

(** ** The refresh chain *)

(** The world after a cycle whose transform gave [airplaneMarkers]. *)
Definition new_layer (airplaneMarkers : list Feature) (w : World) : Layer :=
  {| layerRef := fresh w; features := airplaneMarkers |}.

Definition swapped (airplaneMarkers : list Feature) (oldDataLayer : option Layer)
    (w : World) : World :=
  let flightDataOverlay := new_layer airplaneMarkers w in
  setTimeout (RefreshTimer flightDataOverlay) AUTOREFRESH
    (addLayer flightDataOverlay
       (removeLayer oldDataLayer (with_fresh (S (fresh w)) (hideLoader w)))).

(** The layers that pending refresh timers hold. *)
Definition refreshTimers (ts : list (Z * Timer)) : list Layer :=
  flat_map (fun t => match snd t with
                     | RefreshTimer l => [l]
                     | LoaderTimer => []
                     end) ts.

Definition is_air_get (c : Call) : bool :=
  match c with
  | HttpGet url => String.eqb url AIR_DATA_URL
  | _ => false
  end.

(** How many telemetry fetches were issued so far. *)
Definition airFetches (w : World) : nat :=
  List.length (filter is_air_get (calls w)).

(** The layer that the continuation of a request will detach. *)
Definition captured (k : Request) : option Layer :=
  match k with
  | AirRequest l => Some l
  | _ => None
  end.

(** A telemetry response on which the cycle fails: a rejection, or a
    payload on which the transform throws. *)
Definition fails (k : Request) (r : Result Value) : bool :=
  match k, r with
  | IpRequest, _ => false
  | _, Throw _ => true
  | _, Ok data => negb (succeeds (getAirplaneMarkers data))
  end.

(** What the refresh chain waits for, with the layer it will replace. *)
Inductive Phase (w : World) : Prop :=
| Booting :
    requests w = [IpRequest] -> refreshTimers (timers w) = [] ->
    view w = None -> layers w = [] -> Phase w
| FirstFetch :
    requests w = [FirstAirRequest] -> refreshTimers (timers w) = [] ->
    view w <> None -> layers w = [] -> Phase w
| Fetching (l : Layer) :
    requests w = [AirRequest l] -> refreshTimers (timers w) = [] ->
    view w <> None -> layers w = [l] -> Phase w
| IdleWaiting (l : Layer) :
    requests w = [] -> refreshTimers (timers w) = [l] ->
    view w <> None -> layers w = [l] -> Phase w
| Stopped :
    requests w = [] -> refreshTimers (timers w) = [] -> Phase w.

(** What an event that is not a step of the chain leaves alone. *)
Definition same_chain (w w' : World) : Prop :=
  requests w' = requests w /\ timers w' = timers w /\ view w' = view w
  /\ layers w' = layers w /\ calls w' = calls w.

(** Nothing of the chain is pending. *)
Definition halted (w : World) : Prop :=
  requests w = [] /\ refreshTimers (timers w) = [].

(** ** What an evaluation reads of the raw vector

    The callback of the parser and the popup, with the indices they read
    of the raw vector logged in order.  An evaluation that throws stops
    reading. *)

Definition Traced (A : Type) : Type := (list nat * Result A)%type.

Definition traced {A : Type} (r : Result A) : Traced A := ([], r).

Definition read (v : Value) (i : nat) : Traced Value := ([i], GetIndex v i).

Definition traced_bind {A B : Type} (m : Traced A) (k : A -> Traced B)
    : Traced B :=
  match m with
  | (log, Ok a) => let '(log', r) := k a in (log ++ log', r)
  | (log, Throw e) => (log, Throw e)
  end.

(** The callback after its three reads. *)
Definition planeIconFrom (state lon lat rotation : Value)
    : Result (option Feature) :=
  if negb (ToBoolean lat) || negb (ToBoolean lon) || negb (ToBoolean rotation)
  then Ok None
  else
    let* lon := ToNumber lon in
    let* lat := ToNumber lat in
    let* rotation := decimalDegreesToRadians rotation in
    Ok (Some {| lonLat := (lon, lat); rotation := rotation;
                airplaneData := state |}).

Definition planeIconOf_traced (state : Value) : Traced (option Feature) :=
  traced_bind (read state 5) (fun lon =>
  traced_bind (read state 6) (fun lat =>
  traced_bind (read state 10) (fun rotation =>
  traced (planeIconFrom state lon lat rotation)))).

Definition popupRows_traced (airplaneData : Value) : Traced PopupContent :=
  traced_bind (read airplaneData 1) (fun callsign =>
  traced_bind (traced (ToString callsign)) (fun callsign =>
  traced_bind (read airplaneData 2) (fun from =>
  traced_bind (traced (ToString from)) (fun from =>
  traced_bind (read airplaneData 5) (fun latitude =>
  traced_bind (traced (ToString latitude)) (fun latitude =>
  traced_bind (read airplaneData 6) (fun longitude =>
  traced_bind (traced (ToString longitude)) (fun longitude =>
  traced (Ok [("Callsign"%string, callsign); ("From"%string, from);
              ("Latitude"%string, latitude);
              ("Longitude"%string, longitude)]))))))))).

(** ** Shapes of payloads and events *)

(** The callback of the parser returns on this record: it is not [null]
    or [undefined], and either the gate rejects it or its three fields
    coerce. *)
Definition parses (state : Value) : bool :=
  match GetIndex state 5, GetIndex state 6, GetIndex state 10 with
  | Ok lon, Ok lat, Ok rotation =>
      negb (ToBoolean lat) || negb (ToBoolean lon) || negb (ToBoolean rotation)
      || (printable lon && printable lat && printable rotation)
  | _, _, _ => false
  end.

(** The popup can show this raw vector: fields 1, 2, 5 and 6 can be read
    and printed. *)
Definition showable (airplaneData : Value) : bool :=
  match GetIndex airplaneData 1, GetIndex airplaneData 2,
        GetIndex airplaneData 5, GetIndex airplaneData 6 with
  | Ok callsign, Ok from, Ok latitude, Ok longitude =>
      printable callsign && printable from
      && printable latitude && printable longitude
  | _, _, _, _ => false
  end.

(** [undefined] and [null]: the values a property cannot be read from. *)
Definition nullish (v : Value) : bool :=
  match v with
  | Undefined | Null => true
  | _ => false
  end.

(** A payload that has the given states and nothing else. *)
Definition withStates (states : list Value) : Value :=
  Object [("states"%string, Array states)].

(** A geolocation response on which the startup chain stops. *)
Definition startup_fails (r : Result Value) : bool :=
  match r with
  | Throw _ => true
  | Ok geoIpData => nullish geoIpData
  end.

(** The events of the pointer and of the close button. *)
Definition is_ui_event (ev : Event) : bool :=
  match ev with
  | Click _ _ | PointerMove _ | CloseClick => true
  | _ => false
  end.

(** The two timeouts the script ever arms. *)
Definition known_timeout (t : Z * Timer) : Prop :=
  t = (2000, LoaderTimer)
  \/ exists flightDataOverlay, t = (AUTOREFRESH, RefreshTimer flightDataOverlay).

(** The events of the refresh chain proper: a telemetry response and a
    timeout. *)
Definition is_refresh_event (w : World) (ev : Event) : bool :=
  match ev with
  | Settle i _ =>
      match nth_error (requests w) i with
      | Some IpRequest => false
      | _ => true
      end
  | Fire _ => true
  | _ => false
  end.

(** * Properties *)

(** Reads the fields of a world built by the setters and host operations. *)
Ltac fields :=
  cbn [view layers overlayPosition popupBody closerFocused cursor loader
       timers requests fresh calls console
       with_view with_layers with_overlayPosition with_popupBody
       with_closerFocused with_cursor with_loader with_timers with_requests
       with_fresh with_calls with_console
       get setTimeout removeLayer addLayer drawInitialMap showLoader
       hideLoader pointermove closeClick app].

(** ** Integer conversion of doubles *)

Section Int32.

Lemma int32_range (z : Z) : - 2 ^ 31 <= int32 z < 2 ^ 31.
Proof.
  unfold int32.
  pose proof (Z.mod_pos_bound z (2 ^ 32) ltac:(lia)) as Hm.
  destruct (2 ^ 31 <=? z mod 2 ^ 32) eqn:E;
    [apply Z.leb_le in E | apply Z.leb_gt in E]; lia.
Qed.

Lemma int32_congruent (z : Z) : int32 z mod 2 ^ 32 = z mod 2 ^ 32.
Proof.
  unfold int32.
  destruct (2 ^ 31 <=? z mod 2 ^ 32).
  - replace (z mod 2 ^ 32 - 2 ^ 32) with (z mod 2 ^ 32 + (-1) * 2 ^ 32) by lia.
    rewrite Z.mod_add by lia. apply Z.mod_mod. lia.
  - apply Z.mod_mod. lia.
Qed.

Lemma int32_small (z : Z) : 0 <= z < 2 ^ 31 -> int32 z = z.
Proof.
  intros H. unfold int32.
  rewrite Z.mod_small by lia.
  destruct (2 ^ 31 <=? z) eqn:E; [apply Z.leb_le in E; lia | reflexivity].
Qed.

Lemma int32_large (z : Z) : 2 ^ 31 <= z -> int32 z <> z.
Proof.
  intros H. pose proof (int32_range z). lia.
Qed.

(** A positive number lies between the powers of two that its bit count
    announces. *)
Lemma digits2_pos_bounds (m : positive) :
  2 ^ (Zpos (digits2_pos m) - 1) <= Zpos m < 2 ^ Zpos (digits2_pos m).
Proof.
  induction m as [m IH | m IH | ]; cbn [digits2_pos].
  - rewrite Pos2Z.inj_succ.
    replace (Z.succ (Zpos (digits2_pos m)) - 1) with (Z.succ (Zpos (digits2_pos m) - 1)) by lia.
    rewrite !Z.pow_succ_r by lia. lia.
  - rewrite Pos2Z.inj_succ.
    replace (Z.succ (Zpos (digits2_pos m)) - 1) with (Z.succ (Zpos (digits2_pos m) - 1)) by lia.
    rewrite !Z.pow_succ_r by lia. lia.
  - cbn. lia.
Qed.

(** On a double without sign, truncation and floor agree and are not
    negative. *)
Lemma SFtruncate_abs (x : spec_float) :
  SFtruncate (SFabs x) = SFfloor (SFabs x) /\ 0 <= SFfloor (SFabs x).
Proof.
  destruct x as [s | s | | s m e];
    cbn [SFabs SFtruncate SFfloor cond_Zopp]; try lia.
  assert (0 < 2 ^ Z.max 0 (- e)) by (apply Z.pow_pos_nonneg; lia).
  assert (0 <= Zpos m * 2 ^ Z.max 0 e)
    by (apply Z.mul_nonneg_nonneg; [lia | apply Z.pow_nonneg; lia]).
  split.
  - apply Z.quot_div_nonneg; lia.
  - apply Z.div_pos; lia.
Qed.

Lemma truncate_abs (x : float) :
  truncate (abs x) = floor (abs x) /\ 0 <= floor (abs x).
Proof.
  unfold truncate, floor. rewrite abs_spec. apply SFtruncate_abs.
Qed.

(** The comparisons of a double against [2^31], read on its floor. *)

Lemma Prim2SF_2_31 :
  Prim2SF 2147483648 = S754_finite false 4503599627370496 (-21).
Proof. reflexivity. Qed.

Lemma canonical_digits (m : positive) (e : Z) :
  canonical_mantissa prec emax m e = true ->
  Zpos (digits2_pos m) <= 53 /\ (-1074 < e -> Zpos (digits2_pos m) = 53).
Proof.
  unfold canonical_mantissa, fexp, emin, prec, emax.
  intros H. apply Z.eqb_eq in H. lia.
Qed.

Lemma SFfloor_below (m : positive) (e : Z) :
  Zpos m < 2 ^ 31 * 2 ^ Z.max 0 (- e) -> e <= 0 ->
  SFfloor (S754_finite false m e) < 2 ^ 31.
Proof.
  intros Hm He. cbn [SFfloor cond_Zopp].
  replace (Z.max 0 e) with 0 by lia. rewrite Z.mul_1_r.
  apply Z.div_lt_upper_bound; [apply Z.pow_pos_nonneg; lia | lia].
Qed.

Lemma SFfloor_above (m : positive) (e : Z) :
  2 ^ 31 * 2 ^ Z.max 0 (- e) <= Zpos m ->
  2 ^ 31 <= SFfloor (S754_finite false m e).
Proof.
  intros Hm. cbn [SFfloor cond_Zopp].
  assert (0 < 2 ^ Z.max 0 (- e)) by (apply Z.pow_pos_nonneg; lia).
  assert (1 <= 2 ^ Z.max 0 e)
    by (change 1 with (2 ^ 0); apply Z.pow_le_mono_r; lia).
  apply Z.div_le_lower_bound; [lia | nia].
Qed.

Lemma floor_below_2_31 (x : float) :
  (abs x <? 2147483648)%float = true -> 0 <= floor (abs x) < 2 ^ 31.
Proof.
  intros H. split; [apply truncate_abs |].
  rewrite ltb_spec, Prim2SF_2_31 in H. unfold floor.
  rewrite abs_spec in *.
  pose proof (Prim2SF_valid x) as V.
  destruct (Prim2SF x) as [s | s | | s m e]; cbn [SFabs] in *;
    try discriminate; try (cbn; lia).
  apply andb_prop in V. destruct V as [C _].
  apply canonical_digits in C. destruct C as [D _].
  pose proof (digits2_pos_bounds m) as [_ B].
  assert (Zpos m < 2 ^ 53).
  { eapply Z.lt_le_trans; [exact B | apply Z.pow_le_mono_r; lia]. }
  unfold SFltb, SFcompare in H.
  destruct (Z.compare_spec e (-21)) as [E | E | E]; try discriminate.
  - subst e. apply SFfloor_below; [| lia].
    rewrite Pos.compare_cont_spec in H.
    destruct (Pos.compare_spec m 4503599627370496) as [Cm | Cm | Cm];
      try discriminate.
    apply Pos2Z.pos_lt_pos in Cm. cbn. clear - Cm. lia.
  - apply SFfloor_below; [| lia].
    assert (2 ^ 22 <= 2 ^ Z.max 0 (- e)) by (apply Z.pow_le_mono_r; lia).
    lia.
Qed.

Lemma floor_above_2_31 (x : float) :
  (2147483648 <=? abs x)%float = true -> (abs x <? infinity)%float = true ->
  2 ^ 31 <= floor (abs x).
Proof.
  intros H F.
  rewrite leb_spec, Prim2SF_2_31 in H. rewrite ltb_spec in F. unfold floor.
  rewrite abs_spec in *.
  pose proof (Prim2SF_valid x) as V.
  destruct (Prim2SF x) as [s | s | | s m e]; cbn [SFabs] in *;
    try discriminate.
  apply andb_prop in V. destruct V as [C _].
  apply canonical_digits in C. destruct C as [_ D].
  pose proof (digits2_pos_bounds m) as [B _].
  unfold SFleb, SFcompare in H.
  destruct (Z.compare_spec (-21) e) as [E | E | E]; try discriminate.
  - subst e. apply SFfloor_above.
    rewrite Pos.compare_cont_spec in H.
    destruct (Pos.compare_spec 4503599627370496 m) as [Cm | Cm | Cm];
      try discriminate.
    + subst m. cbn. lia.
    + apply Pos2Z.pos_lt_pos in Cm. cbn. clear - Cm. lia.
  - rewrite D in B by lia. apply SFfloor_above.
    assert (2 ^ Z.max 0 (- e) <= 2 ^ 20) by (apply Z.pow_le_mono_r; lia).
    change (53 - 1) with 52 in B. lia.
Qed.

End Int32.

(** ** Coercion *)

Lemma ToNumber_returns (v : Value) :
  ToNumber v
  = if printable v then Ok (returned (ToNumber v)) else Throw TypeError.
Proof.
  destruct v as [| | b | n | s | elems | props];
    unfold ToNumber; try reflexivity;
    match goal with |- context [printable ?v] => destruct (printable v) end;
    reflexivity.
Qed.

Lemma ToNumber_ok_printable (v : Value) (n : float) :
  ToNumber v = Ok n -> printable v = true.
Proof.
  rewrite ToNumber_returns. now destruct (printable v).
Qed.

Lemma bitor_zero (x : float) : bitor x zero = of_Z (ToInt32 x).
Proof.
  unfold bitor.
  replace (ToInt32 zero) with 0 by (vm_compute; reflexivity).
  now rewrite Z.lor_0_r.
Qed.

Lemma Math_abs_ok (dd : Value) (absDd : float) :
  Math_abs dd = Ok absDd <-> exists n, ToNumber dd = Ok n /\ absDd = abs n.
Proof.
  unfold Math_abs. destruct (ToNumber dd) as [n | e]; cbn [bind]; split.
  - intros E. injection E as <-. now exists n.
  - intros (m & E & ->). now injection E as <-.
  - discriminate.
  - intros (m & E & _). discriminate.
Qed.

Lemma decimalDegreesToRadians_unfold (dd : Value) (absDd : float) :
  Math_abs dd = Ok absDd ->
  decimalDegreesToRadians dd
  = Ok (of_Z (ToInt32 absDd) * (Math_PI / 180))%float.
Proof.
  intros E. unfold decimalDegreesToRadians. rewrite E. cbn [bind].
  now rewrite bitor_zero.
Qed.

Lemma decimalDegreesToRadians_returns (dd : Value) :
  decimalDegreesToRadians dd
  = if printable dd then Ok (returned (decimalDegreesToRadians dd))
    else Throw TypeError.
Proof.
  unfold decimalDegreesToRadians, Math_abs. rewrite ToNumber_returns.
  now destruct (printable dd).
Qed.

(** ** The parser *)

Lemma planeIconOf_array (state : list Value) :
  planeIconOf (Array state)
  = if rejected state then Ok None
    else if coerces state then Ok (Some (entity state))
         else Throw TypeError.
Proof.
  unfold planeIconOf, rejected, coerces, entity. cbn [GetIndex bind].
  destruct (negb _ || negb _ || negb _); [reflexivity |].
  rewrite (ToNumber_returns (nth 5 state Undefined)).
  destruct (printable (nth 5 state Undefined)); [| reflexivity].
  rewrite (ToNumber_returns (nth 6 state Undefined)).
  destruct (printable (nth 6 state Undefined)); [| reflexivity].
  rewrite (decimalDegreesToRadians_returns (nth 10 state Undefined)).
  destruct (printable (nth 10 state Undefined)); reflexivity.
Qed.

(** The scenarios of the specification: heading [45.7] gives 45 degrees in
    radians, heading [0] gives no entity. *)
Example scenario_heading_45_7 :
  planeIconOf
    (Array (scenario (Number 10.5) (Number (StringToNumber "20.3"))
              (Number (StringToNumber "45.7"))))
  = Ok (Some {| lonLat := (10.5%float, StringToNumber "20.3");
                rotation := (45 * (Math_PI / 180))%float;
                airplaneData :=
                  Array (scenario (Number 10.5) (Number (StringToNumber "20.3"))
                           (Number (StringToNumber "45.7"))) |}).
Proof. vm_compute. reflexivity. Qed.

Example scenario_heading_zero :
  planeIconOf
    (Array (scenario (Number 10.5) (Number (StringToNumber "20.3")) (Number 0)))
  = Ok None.
Proof. vm_compute. reflexivity. Qed.

(** A truthy field whose coercion throws makes the callback throw. *)
Example scenario_unprintable_longitude :
  planeIconOf (Array (scenario unprintable (Number 20.25) (Number 45.5)))
  = Throw TypeError.
Proof. reflexivity. Qed.

Lemma ToInt32_abs_floor (x : float) :
  (abs x <? 2147483648)%float = true -> ToInt32 (abs x) = floor (abs x).
Proof.
  intros H. unfold ToInt32.
  destruct (truncate_abs x) as [-> _].
  apply int32_small. now apply floor_below_2_31.
Qed.

(** Two doubles of different sign are different. *)
Lemma float_neq_by_sign (a b : float) :
  (a <? 0)%float = true -> (b <? 0)%float = false -> a <> b.
Proof. intros Ha Hb E. subst b. congruence. Qed.

(** C10: the degree count is [absDd | 0], a signed 32-bit truncation of
    the number [absDd] that [Math.abs] returned.  It lies in the signed
    32-bit range and is congruent to [floor |dd|] modulo [2^32]; it is
    [floor |dd|] whenever [|dd| < 2^31]; for a finite [|dd| >= 2^31] it is
    never [floor |dd|]; at [dd = 2^31] it is [-2^31], and the heading is
    negative, not [floor |dd| * (pi/180)].  Where [Math.abs] throws, so
    does the conversion. *)
Theorem degree_count_is_int32_truncation (dd : Value) :
  (forall absDd,
     Math_abs dd = Ok absDd ->
     let deg := ToInt32 absDd in
     decimalDegreesToRadians dd = Ok (of_Z deg * (Math_PI / 180))%float
     /\ - 2 ^ 31 <= deg < 2 ^ 31
     /\ deg mod 2 ^ 32 = floor absDd mod 2 ^ 32
     /\ ((absDd <? 2147483648)%float = true -> deg = floor absDd)
     /\ ((2147483648 <=? absDd)%float = true ->
         (absDd <? infinity)%float = true -> deg <> floor absDd))
  /\ (forall e, Math_abs dd = Throw e -> decimalDegreesToRadians dd = Throw e)
  /\ Math_abs (Number 2147483648) = Ok 2147483648%float
  /\ ToInt32 2147483648 = - 2 ^ 31
  /\ floor 2147483648 = 2 ^ 31
  /\ exists radians,
       decimalDegreesToRadians (Number 2147483648) = Ok radians
       /\ (radians <? 0)%float = true
       /\ radians <> (of_Z (floor 2147483648) * (Math_PI / 180))%float.
Proof.
  split.
  { intros absDd E. cbv zeta.
    split; [now apply decimalDegreesToRadians_unfold |].
    apply Math_abs_ok in E. destruct E as (x & _ & ->).
    split; [apply int32_range |].
    split.
    { unfold ToInt32. destruct (truncate_abs x) as [-> _].
      apply int32_congruent. }
    split; [apply ToInt32_abs_floor |].
    intros H F. unfold ToInt32. destruct (truncate_abs x) as [-> _].
    apply int32_large. now apply floor_above_2_31. }
  split.
  { intros e E. unfold decimalDegreesToRadians. now rewrite E. }
  split; [reflexivity |].
  split; [vm_compute; reflexivity |].
  split; [vm_compute; reflexivity |].
  eexists. split; [vm_compute; reflexivity |].
  split; [vm_compute; reflexivity |].
  apply float_neq_by_sign; vm_compute; reflexivity.
Qed.

Lemma degree_count_is_int32_truncation_witness :
  ToInt32 45.5 = floor 45.5
  /\ (forall absDd,
        Math_abs (String "-3e9"%string) = Ok absDd ->
        ToInt32 absDd <> floor absDd)
  /\ decimalDegreesToRadians unprintable = Throw TypeError.
Proof.
  split; [| split].
  - destruct (degree_count_is_int32_truncation (Number 45.5)) as (H & _).
    destruct (H 45.5%float eq_refl) as (_ & _ & _ & B & _).
    apply B. vm_compute. reflexivity.
  - intros absDd E.
    destruct (degree_count_is_int32_truncation (String "-3e9"%string))
      as (H & _).
    destruct (H absDd E) as (_ & _ & _ & _ & B).
    vm_compute in E. injection E as <-.
    apply B; vm_compute; reflexivity.
  - destruct (degree_count_is_int32_truncation unprintable) as (_ & H & _).
    apply H. reflexivity.
Defined.

(** C2, amended: a state vector whose latitude, longitude and heading are
    truthy and numeric, in that their coercion to a number returns, and
    whose heading has an absolute value below [2^31], yields an entity
    whose heading is [floor |heading| * (pi/180)]. *)
Theorem heading_is_floor_of_degrees (state : list Value) (x y h : float) :
  let lon := nth 5 state Undefined in
  let lat := nth 6 state Undefined in
  let heading := nth 10 state Undefined in
  ToBoolean lat = true -> ToBoolean lon = true -> ToBoolean heading = true ->
  ToNumber lon = Ok x -> ToNumber lat = Ok y -> ToNumber heading = Ok h ->
  (abs h <? 2147483648)%float = true ->
  exists icon,
    planeIconOf (Array state) = Ok (Some icon)
    /\ lonLat icon = (x, y)
    /\ rotation icon = (of_Z (floor (abs h)) * (Math_PI / 180))%float.
Proof.
  cbv zeta. intros Hlat Hlon Hh Ex Ey Eh Hb.
  unfold planeIconOf. cbn [GetIndex bind]. rewrite Hlat, Hlon, Hh.
  cbn [negb orb]. rewrite Ex, Ey. cbn [bind].
  rewrite (decimalDegreesToRadians_unfold _ (abs h))
    by (unfold Math_abs; now rewrite Eh).
  cbn [bind]. eexists. split; [reflexivity |].
  split; [reflexivity |]. cbn [rotation]. now rewrite ToInt32_abs_floor.
Qed.

Lemma heading_is_floor_of_degrees_witness :
  exists icon,
    planeIconOf (Array (scenario (Number 10.5) (Number 20.25) (Number 45.5)))
    = Ok (Some icon)
    /\ lonLat icon = (10.5, 20.25)%float
    /\ rotation icon = (45 * (Math_PI / 180))%float.
Proof.
  apply (heading_is_floor_of_degrees
           (scenario (Number 10.5) (Number 20.25) (Number 45.5))
           10.5 20.25 45.5);
    vm_compute; reflexivity.
Defined.

(** C2 as stated fails: with heading [2^31] every field is a truthy
    number, yet the heading of the entity is not
    [floor |heading| * (pi/180)]. *)
Lemma heading_wraps_at_2_31 :
  let state := scenario (Number 10.5) (Number 20.25) (Number 2147483648) in
  ToBoolean (nth 6 state Undefined) = true
  /\ ToBoolean (nth 5 state Undefined) = true
  /\ ToBoolean (nth 10 state Undefined) = true
  /\ ToNumber (nth 5 state Undefined) = Ok 10.5%float
  /\ ToNumber (nth 6 state Undefined) = Ok 20.25%float
  /\ ToNumber (nth 10 state Undefined) = Ok 2147483648%float
  /\ is_finite 2147483648 = true
  /\ exists icon,
       planeIconOf (Array state) = Ok (Some icon)
       /\ rotation icon
          <> (of_Z (floor (abs 2147483648)) * (Math_PI / 180))%float.
Proof.
  cbv zeta. repeat split; try (vm_compute; reflexivity).
  eexists. split; [vm_compute; reflexivity |].
  apply float_neq_by_sign; vm_compute; reflexivity.
Qed.

(** C3, amended: a state vector whose latitude, longitude or heading is
    missing or falsy ([undefined], [null], [false], a zero, [NaN], the
    empty string) yields no entity and no error, and the loop goes on to
    the next record with the markers unchanged. *)
Theorem falsy_field_is_skipped (state : list Value) (rest : list Value)
    (markers : list Feature) :
  (List.length state <= 10)%nat
  \/ ToBoolean (nth 6 state Undefined) = false
  \/ ToBoolean (nth 5 state Undefined) = false
  \/ ToBoolean (nth 10 state Undefined) = false ->
  planeIconOf (Array state) = Ok None
  /\ forEach (Array state :: rest) markers = forEach rest markers.
Proof.
  intros H.
  assert (R : rejected state = true).
  { unfold rejected. destruct H as [H | [H | [H | H]]].
    - rewrite (nth_overflow state Undefined H). cbn. apply orb_true_r.
    - now rewrite H.
    - rewrite H. cbn. now rewrite orb_true_r.
    - rewrite H. cbn. now rewrite orb_true_r. }
  assert (P : planeIconOf (Array state) = Ok None)
    by (rewrite planeIconOf_array; now rewrite R).
  split; [exact P |].
  cbn [forEach]. now rewrite P.
Qed.

Lemma falsy_field_is_skipped_witness :
  planeIconOf (Array (scenario (Number 10.5) (Number 20.25) (Number 0)))
  = Ok None
  /\ planeIconOf (Array [Null; String "ABC123"%string]) = Ok None.
Proof.
  split.
  - apply (falsy_field_is_skipped
             (scenario (Number 10.5) (Number 20.25) (Number 0)) [] []).
    right. right. right. vm_compute. reflexivity.
  - apply (falsy_field_is_skipped [Null; String "ABC123"%string] [] []).
    left. cbn. lia.
Defined.

(** C3 as stated fails: a longitude that is a truthy string and is [NaN]
    after coercion does not make the parser yield absent; the entity is
    created, with [NaN] as its longitude. *)
Lemma non_numeric_field_is_not_skipped :
  let state := scenario (String "abc"%string) (Number 20.25) (Number 45.5) in
  (exists n, ToNumber (nth 5 state Undefined) = Ok n /\ is_nan n = true)
  /\ planeIconOf (Array state) <> Ok None
  /\ exists icon,
       planeIconOf (Array state) = Ok (Some icon)
       /\ is_nan (fst (lonLat icon)) = true.
Proof.
  cbv zeta.
  split; [eexists; split; vm_compute; reflexivity |].
  split; [vm_compute; discriminate |].
  eexists. split; vm_compute; reflexivity.
Qed.

(** ** The popup *)

Lemma planeIconOf_traced_result (state : Value) :
  snd (planeIconOf_traced state) = planeIconOf state.
Proof.
  unfold planeIconOf_traced, planeIconOf, planeIconFrom, read, traced.
  destruct (GetIndex state 5) as [lon |]; cbn; [| reflexivity].
  destruct (GetIndex state 6) as [lat |]; cbn; [| reflexivity].
  destruct (GetIndex state 10) as [rotation |]; cbn; reflexivity.
Qed.

Lemma popupRows_traced_result (airplaneData : Value) (w : World) :
  setPopupContent airplaneData w
  = match snd (popupRows_traced airplaneData) with
    | Ok rows => (Ok tt, with_popupBody rows w)
    | Throw e => (Throw e, w)
    end.
Proof.
  unfold setPopupContent, popupRows_traced, read, traced.
  destruct (GetIndex airplaneData 1) as [a |]; cbn; [| reflexivity].
  destruct (ToString a) as [a' |]; cbn; [| reflexivity].
  destruct (GetIndex airplaneData 2) as [b |]; cbn; [| reflexivity].
  destruct (ToString b) as [b' |]; cbn; [| reflexivity].
  destruct (GetIndex airplaneData 5) as [c |]; cbn; [| reflexivity].
  destruct (ToString c) as [c' |]; cbn; [| reflexivity].
  destruct (GetIndex airplaneData 6) as [d |]; cbn; [| reflexivity].
  destruct (ToString d) as [d' |]; cbn; reflexivity.
Qed.

Lemma setPopupContent_array (state : list Value) (w : World) :
  setPopupContent (Array state) w
  = if printable (nth 1 state Undefined) && printable (nth 2 state Undefined)
       && printable (nth 5 state Undefined)
       && printable (nth 6 state Undefined)
    then (Ok tt,
          with_popupBody
            [("Callsign"%string, nth 1 state Undefined);
             ("From"%string, nth 2 state Undefined);
             ("Latitude"%string, nth 5 state Undefined);
             ("Longitude"%string, nth 6 state Undefined)] w)
    else (Throw TypeError, w).
Proof.
  unfold setPopupContent, ToString. cbn [GetIndex bind].
  destruct (printable (nth 1 state Undefined)); [| reflexivity].
  cbn [bind].
  destruct (printable (nth 2 state Undefined)); [| reflexivity].
  cbn [bind].
  destruct (printable (nth 5 state Undefined)); [| reflexivity].
  cbn [bind].
  destruct (printable (nth 6 state Undefined)); reflexivity.
Qed.

(** C1, amended: the two offset mappings hold together, but identity and
    origin are not read by the parser.  On a raw state vector the parser
    reads positions 5, 6 and 10 and no other; the entity it makes has the
    number at position 5 as longitude and the number at position 6 as
    latitude, its heading comes from position 10, and it carries the
    vector itself.  A click on the entity reads positions 1, 2, 5 and 6 of
    that vector and, when the values at 1 and 2 can be printed, shows
    position 1 as callsign, position 2 as origin, position 5 as latitude
    and position 6 as longitude. *)
Theorem parser_and_popup_offsets (state : list Value) (icon : Feature)
    (others : list Feature) (coordinate : Coordinate) (w : World) :
  planeIconOf (Array state) = Ok (Some icon) ->
  fst (planeIconOf_traced (Array state)) = [5; 6; 10]%nat
  /\ snd (planeIconOf_traced (Array state)) = Ok (Some icon)
  /\ ToNumber (nth 5 state Undefined) = Ok (fst (lonLat icon))
  /\ ToNumber (nth 6 state Undefined) = Ok (snd (lonLat icon))
  /\ decimalDegreesToRadians (nth 10 state Undefined) = Ok (rotation icon)
  /\ airplaneData icon = Array state
  /\ printable (nth 5 state Undefined) = true
  /\ printable (nth 6 state Undefined) = true
  /\ (printable (nth 1 state Undefined) = true ->
      printable (nth 2 state Undefined) = true ->
      fst (popupRows_traced (airplaneData icon)) = [1; 2; 5; 6]%nat
      /\ fst (click (Some (icon :: others)) coordinate w) = Ok tt
      /\ popupBody (snd (click (Some (icon :: others)) coordinate w))
         = [("Callsign"%string, nth 1 state Undefined);
            ("From"%string, nth 2 state Undefined);
            ("Latitude"%string, nth 5 state Undefined);
            ("Longitude"%string, nth 6 state Undefined)]
      /\ overlayPosition (snd (click (Some (icon :: others)) coordinate w))
         = Some coordinate).
Proof.
  intros E.
  split; [reflexivity |].
  split; [now rewrite planeIconOf_traced_result |].
  rewrite planeIconOf_array in E.
  destruct (rejected state); [discriminate |].
  destruct (coerces state) eqn:C; [| discriminate].
  injection E as <-.
  unfold coerces in C. apply andb_prop in C. destruct C as [C P10].
  apply andb_prop in C. destruct C as [P5 P6].
  cbn [entity lonLat rotation airplaneData fst snd].
  split; [now rewrite ToNumber_returns, P5 |].
  split; [now rewrite ToNumber_returns, P6 |].
  split; [now rewrite decimalDegreesToRadians_returns, P10 |].
  split; [reflexivity |].
  split; [exact P5 |]. split; [exact P6 |].
  intros P1 P2.
  split.
  { unfold popupRows_traced, read, traced, ToString.
    cbn [GetIndex traced_bind]. rewrite P1. cbn [traced_bind].
    rewrite P2. cbn [traced_bind]. rewrite P5. cbn [traced_bind].
    rewrite P6. reflexivity. }
  cbn [click nth_error airplaneData entity].
  rewrite setPopupContent_array, P1, P2, P5, P6. now repeat split.
Qed.

Lemma parser_and_popup_offsets_witness :
  fst (planeIconOf_traced
         (Array (scenario (Number 10.5) (Number 20.25) (Number 45.5))))
  = [5; 6; 10]%nat
  /\ popupBody
       (snd (click
               (Some [entity (scenario (Number 10.5) (Number 20.25)
                                (Number 45.5))])
               (0, 0)%float blank))
     = [("Callsign"%string, String "ABC123"%string);
        ("From"%string, String "USA"%string);
        ("Latitude"%string, Number 10.5); ("Longitude"%string, Number 20.25)].
Proof.
  destruct (parser_and_popup_offsets
              (scenario (Number 10.5) (Number 20.25) (Number 45.5))
              (entity (scenario (Number 10.5) (Number 20.25) (Number 45.5)))
              [] (0, 0)%float blank eq_refl)
    as (R & _ & _ & _ & _ & _ & _ & _ & H).
  split; [exact R |].
  destruct (H eq_refl eq_refl) as (_ & _ & B & _). exact B.
Defined.

(** C1 as stated fails: on the scenario vector, where the parser makes an
    entity, it reads neither position 1 nor position 2. *)
Lemma parser_reads_no_identity :
  let state := scenario (Number 10.5) (Number 20.25) (Number 45.5) in
  (exists icon, snd (planeIconOf_traced (Array state)) = Ok (Some icon))
  /\ ~ In 1%nat (fst (planeIconOf_traced (Array state)))
  /\ ~ In 2%nat (fst (planeIconOf_traced (Array state))).
Proof.
  cbv zeta. split; [eexists; vm_compute; reflexivity |].
  split; cbn; intros [H | [H | [H | []]]]; discriminate.
Qed.

(** C8: a click that strikes nothing hides the overlay and leaves no
    selection, whatever was selected before; the handler does not fail and
    touches nothing else. *)
Theorem miss_clears_inspection (coordinate : Coordinate) (w : World) :
  click None coordinate w = (Ok tt, with_overlayPosition None w)
  /\ overlayPosition (snd (click None coordinate w)) = None
  /\ InspectionState (snd (click None coordinate w)) = None
  /\ step w (Click None coordinate)
     = match view w with
       | Some _ => Some (with_overlayPosition None w)
       | None => None
       end.
Proof.
  unfold InspectionState.
  cbn [click snd step overlayPosition with_overlayPosition].
  repeat split.
Qed.

(** C9: the close button hides the overlay and leaves no selection from
    every state, and closing twice is closing once. *)
Theorem close_is_unconditional_and_idempotent (w : World) :
  overlayPosition (closeClick w) = None
  /\ InspectionState (closeClick w) = None
  /\ closeClick (closeClick w) = closeClick w
  /\ step w CloseClick
     = match view w with
       | Some _ => Some (closeClick w)
       | None => None
       end.
Proof.
  unfold InspectionState.
  cbn [closeClick overlayPosition with_overlayPosition with_closerFocused step].
  repeat split.
Qed.

(** ** The transformer *)

Lemma forEach_arrays (rows : list (list Value)) :
  forall markers,
    forallb (fun state => rejected state || coerces state) rows = true ->
    forEach (map Array rows) markers
    = Ok (markers ++ map entity (filter accepted rows)).
Proof.
  induction rows as [| state rows IH]; intros markers C;
    cbn [map forEach filter forallb] in *.
  - now rewrite app_nil_r.
  - apply andb_prop in C. destruct C as [C Cs].
    rewrite planeIconOf_array. unfold accepted at 1.
    destruct (rejected state); cbn [negb orb] in *.
    + cbn [bind]. now apply IH.
    + rewrite C. cbn [bind]. rewrite IH by exact Cs.
      cbn [map]. now rewrite <- app_assoc.
Qed.

(** C4, amended: of [N] raw records, [K] of which have a missing or falsy
    latitude, longitude or heading, and the others fields that coerce to
    numbers, the transform yields exactly [N - K] entities: those of the
    other records, in their order, each carrying its record; an empty input
    yields an empty snapshot; it does not fail. *)
Theorem transform_counts_and_keeps_order (flightData : Value)
    (rows : list (list Value)) :
  GetNamed flightData "states"%string = Ok (Array (map Array rows)) ->
  forallb (fun state => rejected state || coerces state) rows = true ->
  exists markers,
    getAirplaneMarkers flightData = Ok markers
    /\ List.length markers
       = (List.length rows - List.length (filter rejected rows))%nat
    /\ markers = map entity (filter accepted rows)
    /\ map airplaneData markers = map Array (filter accepted rows)
    /\ (rows = [] -> markers = []).
Proof.
  intros G C. exists (map entity (filter accepted rows)).
  split.
  { unfold getAirplaneMarkers. rewrite G. cbn [bind].
    now apply forEach_arrays. }
  split.
  { rewrite length_map. pose proof (filter_length rejected rows) as L.
    unfold accepted. lia. }
  split; [reflexivity |].
  split.
  { rewrite map_map. apply map_ext. reflexivity. }
  intros ->. reflexivity.
Qed.

Lemma transform_counts_and_keeps_order_witness :
  exists markers,
    getAirplaneMarkers
      (payload
         [scenario (Number 10.5) (Number 20.25) (Number 45.5);
          scenario (Number 10.5) (Number 20.25) (Number 0);
          scenario (Number 1) (Number 2) (String "90"%string)])
    = Ok markers
    /\ List.length markers = 2%nat
    /\ map airplaneData markers
       = [Array (scenario (Number 10.5) (Number 20.25) (Number 45.5));
          Array (scenario (Number 1) (Number 2) (String "90"%string))].
Proof.
  destruct (transform_counts_and_keeps_order
              (payload
                 [scenario (Number 10.5) (Number 20.25) (Number 45.5);
                  scenario (Number 10.5) (Number 20.25) (Number 0);
                  scenario (Number 1) (Number 2) (String "90"%string)])
              [scenario (Number 10.5) (Number 20.25) (Number 45.5);
               scenario (Number 10.5) (Number 20.25) (Number 0);
               scenario (Number 1) (Number 2) (String "90"%string)]
              eq_refl eq_refl)
    as (markers & E & L & _ & A & _).
  exists markers. split; [exact E |]. split; [exact L | exact A].
Defined.

(** C4 as stated fails: a snapshot of one record whose longitude is not
    numeric after coercion has [N = 1] and [K = 1] invalid records, yet the
    transform yields one entity, not [N - K = 0]. *)
Lemma non_numeric_record_is_kept :
  let rows := [scenario (String "abc"%string) (Number 20.25) (Number 45.5)] in
  List.length rows = 1%nat
  /\ List.length (filter invalid_by_spec rows) = 1%nat
  /\ exists markers,
       getAirplaneMarkers (payload rows) = Ok markers
       /\ List.length markers = 1%nat
       /\ List.length markers
          <> (List.length rows
              - List.length (filter invalid_by_spec rows))%nat.
Proof.
  cbv zeta. split; [reflexivity |].
  split; [vm_compute; reflexivity |].
  eexists. split; [vm_compute; reflexivity |].
  split; [reflexivity |]. vm_compute. discriminate.
Qed.

Lemma truthy_number (n : float) :
  ToBoolean (Number n) = true -> is_nan n = false /\ is_zero n = false.
Proof.
  cbn [ToBoolean]. destruct (is_zero n), (is_nan n); cbn; intuition congruence.
Qed.

Lemma planeIconOf_passed_gate (state : Value) (icon : Feature) :
  planeIconOf state = Ok (Some icon) -> passed_gate icon.
Proof.
  unfold planeIconOf.
  destruct (GetIndex state 5) as [lon |] eqn:E5; [| discriminate].
  destruct (GetIndex state 6) as [lat |] eqn:E6; [| discriminate].
  destruct (GetIndex state 10) as [heading |] eqn:E10; [| discriminate].
  cbn [bind].
  destruct (ToBoolean lat) eqn:Tlat; [| discriminate].
  destruct (ToBoolean lon) eqn:Tlon; [| discriminate].
  destruct (ToBoolean heading) eqn:Th; [| discriminate].
  cbn [negb orb].
  destruct (ToNumber lon) as [x |] eqn:Ex; [| discriminate].
  destruct (ToNumber lat) as [y |] eqn:Ey; [| discriminate].
  destruct (decimalDegreesToRadians heading) as [r |] eqn:Er;
    [| discriminate].
  cbn [bind]. intros E. injection E as <-.
  exists lon, lat, heading.
  cbn [airplaneData lonLat rotation createPlaneIcon fst snd].
  repeat (split; [assumption || reflexivity |]).
  split; intros n ->; cbn in Ex, Ey;
    (split; [congruence | now apply truthy_number]).
Qed.

Lemma forEach_passed_gate (states : list Value) :
  forall markers result,
    Forall passed_gate markers ->
    forEach states markers = Ok result ->
    Forall passed_gate result.
Proof.
  induction states as [| state states IH]; intros markers result F;
    cbn [forEach].
  - intros E. injection E as <-. exact F.
  - destruct (planeIconOf state) as [[icon |] |] eqn:P; cbn [bind];
      [| apply IH; exact F | discriminate].
    apply IH. apply Forall_app. split; [exact F |].
    constructor; [| constructor]. now apply planeIconOf_passed_gate with state.
Qed.

Lemma getAirplaneMarkers_passed_gate (flightData : Value) (markers : list Feature) :
  getAirplaneMarkers flightData = Ok markers -> Forall passed_gate markers.
Proof.
  unfold getAirplaneMarkers.
  destruct (GetNamed flightData "states") as [states |]; [| discriminate].
  cbn [bind]. destruct states; try discriminate.
  apply forEach_passed_gate. constructor.
Qed.

(** ** The refresh cycle *)

Lemma processAirTrafficData_throws flightData oldDataLayer w e :
  getAirplaneMarkers flightData = Throw e ->
  processAirTrafficData flightData oldDataLayer w = (Throw e, hideLoader w).
Proof. unfold processAirTrafficData. now intros ->. Qed.

Lemma processAirTrafficData_swaps flightData oldDataLayer w markers :
  getAirplaneMarkers flightData = Ok markers ->
  view w <> None ->
  processAirTrafficData flightData oldDataLayer w
  = (Ok tt, swapped markers oldDataLayer w).
Proof.
  unfold processAirTrafficData. intros -> V.
  cbn [getFlightDataOverlay]. cbn [view with_fresh hideLoader setTimeout with_timers with_loader].
  destruct (view w); [reflexivity | congruence].
Qed.

Lemma refreshTimers_app (a b : list (Z * Timer)) :
  refreshTimers (a ++ b) = refreshTimers a ++ refreshTimers b.
Proof. apply flat_map_app. Qed.

Lemma refreshTimers_refresh (ms : Z) (l : Layer) (ts : list (Z * Timer)) :
  refreshTimers ((ms, RefreshTimer l) :: ts) = l :: refreshTimers ts.
Proof. reflexivity. Qed.

Lemma refreshTimers_loader (ms : Z) (ts : list (Z * Timer)) :
  refreshTimers ((ms, LoaderTimer) :: ts) = refreshTimers ts.
Proof. reflexivity. Qed.

Lemma remove_nth_split {A : Type} (l : list A) :
  forall i x,
    nth_error l i = Some x ->
    exists a b, l = a ++ x :: b /\ remove_nth i l = a ++ b.
Proof.
  induction l as [| y l IH]; intros [| i] x E; cbn in E; try discriminate.
  - injection E as ->. now exists [], l.
  - destruct (IH i x E) as (a & b & -> & R).
    exists (y :: a), b. cbn [remove_nth]. rewrite R. now split.
Qed.

Lemma refreshTimers_remove_loader (ts : list (Z * Timer)) (i : nat) (ms : Z) :
  nth_error ts i = Some (ms, LoaderTimer) ->
  refreshTimers (remove_nth i ts) = refreshTimers ts.
Proof.
  intros E. destruct (remove_nth_split ts i _ E) as (a & b & -> & ->).
  now rewrite !refreshTimers_app, refreshTimers_loader.
Qed.

Lemma refreshTimers_remove_refresh (ts : list (Z * Timer)) (i : nat) (ms : Z)
    (l l' : Layer) :
  nth_error ts i = Some (ms, RefreshTimer l) ->
  refreshTimers ts = [l'] ->
  l = l' /\ refreshTimers (remove_nth i ts) = [].
Proof.
  intros E. destruct (remove_nth_split ts i _ E) as (a & b & -> & ->).
  rewrite !refreshTimers_app, refreshTimers_refresh.
  destruct (refreshTimers a) as [| x [| y r]]; cbn [app]; intros H.
  - injection H as -> ->. now split.
  - injection H as _ H. discriminate.
  - discriminate.
Qed.

Lemma refreshTimers_none (ts : list (Z * Timer)) (i : nat) (ms : Z) (l : Layer) :
  nth_error ts i = Some (ms, RefreshTimer l) -> refreshTimers ts <> [].
Proof.
  intros E. destruct (remove_nth_split ts i _ E) as (a & b & -> & _).
  rewrite refreshTimers_app, refreshTimers_refresh.
  now destruct (refreshTimers a).
Qed.

Lemma same_layer_refl (l : Layer) : same_layer l l = true.
Proof. apply Nat.eqb_refl. Qed.

Lemma same_chain_phase (w w' : World) : same_chain w w' -> Phase w -> Phase w'.
Proof.
  intros (R & T & V & L & _) P.
  destruct P as [? ? ? ? | ? ? ? ? | l ? ? ? ? | l ? ? ? ? | ? ?];
    [ apply Booting | apply FirstFetch | apply (Fetching _ l)
    | apply (IdleWaiting _ l) | apply Stopped ]; congruence.
Qed.

Lemma click_same_chain icon coordinate w :
  same_chain w (snd (click icon coordinate w)).
Proof.
  unfold click, setPopupContent.
  destruct icon as [found |]; [| repeat split].
  destruct (nth_error found 0) as [plane |]; [| repeat split].
  destruct (bind _ _); repeat split.
Qed.

Lemma swapped_fields markers old w :
  requests (swapped markers old w) = requests w
  /\ timers (swapped markers old w)
     = timers w ++ [(2000, LoaderTimer);
                    (AUTOREFRESH, RefreshTimer (new_layer markers w))]
  /\ view (swapped markers old w) = view w
  /\ layers (swapped markers old w)
     = match old with
       | Some l => remove_layer l (layers w)
       | None => layers w
       end ++ [new_layer markers w]
  /\ calls (swapped markers old w)
     = calls w ++ [RemoveLayer old; AddLayer (new_layer markers w)].
Proof.
  repeat split; cbn; now rewrite <- app_assoc.
Qed.

Lemma singleton_nth {A : Type} (x y : A) (i : nat) :
  nth_error [x] i = Some y -> i = O /\ y = x.
Proof.
  destruct i as [| [| i]]; cbn; intros E; try discriminate.
  injection E as <-. now split.
Qed.

Lemma settle_phase (w : World) (k : Request) (r : Result Value) :
  Phase w -> requests w = [k] ->
  Phase (settle k r (with_requests [] w)).
Proof.
  intros P R.
  assert (T : refreshTimers (timers w) = []).
  { destruct P as [? ? ? ? | ? ? ? ? | l ? ? ? ? | l ? ? ? ? | ? ?];
      congruence. }
  assert (Stop : forall e, Phase (with_console (console w ++ [e]) (with_requests [] w)))
    by (intros e; now apply Stopped).
  assert (Froze : Phase (hideLoader (with_requests [] w))).
  { apply Stopped; fields; [reflexivity |].
    now rewrite refreshTimers_app, T. }
  destruct k as [| | l]; cbn [settle].
  - destruct r as [geoIpData | e]; cbn [catch]; [| apply Stop].
    destruct (getUserCoordinates geoIpData) as [coords | e]; cbn [catch];
      [| apply Stop].
    destruct P as [? ? ? L | ? ? ? ? | ? ? ? ? ? | ? ? ? ? ? | ? ?];
      try congruence.
    apply FirstFetch; fields; congruence.
  - destruct r as [data | e]; cbn [catch]; [| apply Stop].
    destruct (getAirplaneMarkers data) as [markers | e] eqn:G.
    + destruct P as [? ? ? ? | ? ? V L | ? ? ? ? ? | ? ? ? ? ? | ? ?];
        try congruence.
      rewrite (processAirTrafficData_swaps _ _ _ markers G) by exact V.
      cbn [catch].
      destruct (swapped_fields markers None (with_requests [] w))
        as (Rq & Tm & Vw & Ly & _).
      apply (IdleWaiting _ (new_layer markers (with_requests [] w))).
      * now rewrite Rq.
      * rewrite Tm, refreshTimers_app. cbn [timers with_requests].
        now rewrite T.
      * now rewrite Vw.
      * rewrite Ly. cbn [layers with_requests]. now rewrite L.
    + rewrite (processAirTrafficData_throws _ _ _ e G). cbn [catch].
      apply Stopped; fields; [reflexivity |].
      now rewrite refreshTimers_app, T.
  - unfold unhandled.
    destruct r as [data | e]; cbn [snd]; [| now apply Stopped].
    destruct (getAirplaneMarkers data) as [markers | e] eqn:G.
    + destruct P as [? ? ? ? | ? ? ? ? | l' Rl ? V L | ? ? ? ? ? | ? ?];
        try congruence.
      assert (l' = l) by congruence. subst l'.
      rewrite (processAirTrafficData_swaps _ _ _ markers G) by exact V.
      cbn [snd].
      destruct (swapped_fields markers (Some l) (with_requests [] w))
        as (Rq & Tm & Vw & Ly & _).
      apply (IdleWaiting _ (new_layer markers (with_requests [] w))).
      * now rewrite Rq.
      * rewrite Tm, refreshTimers_app. cbn [timers with_requests].
        now rewrite T.
      * now rewrite Vw.
      * rewrite Ly. cbn [layers with_requests]. rewrite L.
        cbn [remove_layer]. now rewrite same_layer_refl.
    + rewrite (processAirTrafficData_throws _ _ _ e G). exact Froze.
Qed.

Lemma phase_requests (w : World) (i : nat) (k : Request) :
  Phase w -> nth_error (requests w) i = Some k ->
  i = O /\ requests w = [k] /\ remove_nth i (requests w) = []
  /\ refreshTimers (timers w) = [].
Proof.
  intros P E.
  destruct P as [R ? ? ? | R ? ? ? | l R ? ? ? | l R ? ? ? | R ?];
    rewrite R in E |- *;
    try (destruct i; discriminate);
    apply singleton_nth in E; destruct E as [-> ->]; now repeat split.
Qed.

Lemma phase_step (w w' : World) (ev : Event) :
  Phase w -> step w ev = Some w' -> Phase w'.
Proof.
  intros P S. destruct ev as [i r | i | icon coordinate | showPointer |];
    cbn [step] in S.
  - destruct (nth_error (requests w) i) as [k |] eqn:E; [| discriminate].
    injection S as <-.
    destruct (phase_requests w i k P E) as (_ & R & -> & _).
    now apply settle_phase.
  - destruct (nth_error (timers w) i) as [[ms t] |] eqn:E; [| discriminate].
    injection S as <-. destruct t as [l |]; cbn [fire].
    + destruct P as [? T ? ? | ? T ? ? | ? ? T ? ? | l' R T V L | ? T];
        try (now apply refreshTimers_none in E).
      destruct (refreshTimers_remove_refresh _ _ _ _ _ E T) as [-> T'].
      apply (Fetching _ l'); fields; try assumption. now rewrite R.
    + apply same_chain_phase with (with_timers (remove_nth i (timers w)) w);
        [repeat split |].
      pose proof (refreshTimers_remove_loader _ _ _ E) as T.
      destruct P as [? ? ? ? | ? ? ? ? | l ? ? ? ? | l ? ? ? ? | ? ?];
        [ apply Booting | apply FirstFetch | apply (Fetching _ l)
        | apply (IdleWaiting _ l) | apply Stopped ]; fields; congruence.
  - destruct (view w); [| discriminate]. injection S as <-.
    eapply same_chain_phase; [apply click_same_chain | exact P].
  - destruct (view w); [| discriminate]. injection S as <-.
    eapply same_chain_phase; [| exact P]. repeat split.
  - destruct (view w); [| discriminate]. injection S as <-.
    eapply same_chain_phase; [| exact P]. repeat split.
Qed.

Lemma startup_phase : Phase startup.
Proof. now apply Booting. Qed.

Lemma phase_run (evs : list Event) :
  forall w w', Phase w -> run w evs = Some w' -> Phase w'.
Proof.
  induction evs as [| ev evs IH]; intros w w' P R; cbn [run] in R.
  - now injection R as <-.
  - destruct (step w ev) as [w1 |] eqn:S; [| discriminate].
    eapply IH; [| exact R]. eapply phase_step; eassumption.
Qed.

Lemma halted_step (w w' : World) (ev : Event) :
  halted w -> step w ev = Some w' -> halted w' /\ calls w' = calls w.
Proof.
  intros [R T] S. destruct ev as [i r | i | icon coordinate | showPointer |];
    cbn [step] in S.
  - rewrite R in S. destruct i; discriminate.
  - destruct (nth_error (timers w) i) as [[ms t] |] eqn:E; [| discriminate].
    injection S as <-. destruct t as [l |].
    + now apply refreshTimers_none in E.
    + cbn [fire]. repeat split; fields; try assumption.
      now rewrite (refreshTimers_remove_loader _ _ _ E).
  - destruct (view w); [| discriminate]. injection S as <-.
    destruct (click_same_chain icon coordinate w) as (R' & T' & _ & _ & C').
    unfold halted. now rewrite R', T', C'.
  - destruct (view w); [| discriminate]. injection S as <-. now repeat split.
  - destruct (view w); [| discriminate]. injection S as <-. now repeat split.
Qed.

Lemma halted_run (evs : list Event) :
  forall w w', halted w -> run w evs = Some w' ->
               halted w' /\ calls w' = calls w.
Proof.
  induction evs as [| ev evs IH]; intros w w' H R; cbn [run] in R.
  - injection R as <-. now split.
  - destruct (step w ev) as [w1 |] eqn:S; [| discriminate].
    destruct (halted_step _ _ _ H S) as [H1 C1].
    destruct (IH _ _ H1 R) as [H2 C2]. split; [exact H2 | congruence].
Qed.

Lemma settle_failure (w : World) (k : Request) (r : Result Value) :
  refreshTimers (timers w) = [] -> fails k r = true ->
  let w' := settle k r (with_requests [] w) in
  halted w' /\ calls w' = calls w.
Proof.
  intros T F. cbv zeta.
  assert (Froze : halted (hideLoader (with_requests [] w))
                  /\ calls (hideLoader (with_requests [] w)) = calls w).
  { repeat split. fields. now rewrite refreshTimers_app, T. }
  destruct k as [| | l]; cbn [fails] in F; [discriminate | |];
    cbn [settle]; unfold unhandled;
    (destruct r as [data | e]; cbn [catch snd]; [| now repeat split]);
    (destruct (getAirplaneMarkers data) as [markers | e] eqn:G;
       [cbn in F; discriminate |]);
    rewrite (processAirTrafficData_throws _ _ _ e G); cbn [catch snd];
    [now destruct Froze | exact Froze].
Qed.

Lemma settle_success (w : World) (k : Request) (data : Value)
    (markers : list Feature) :
  Phase w -> requests w = [k] -> k <> IpRequest ->
  getAirplaneMarkers data = Ok markers ->
  settle k (Ok data) (with_requests [] w)
  = swapped markers (captured k) (with_requests [] w)
  /\ layers w = match captured k with Some old => [old] | None => [] end.
Proof.
  intros P R N G.
  assert (V : view (with_requests [] w) <> None /\
              layers w = match captured k with Some old => [old] | None => [] end).
  { destruct P as [? ? ? ? | ? ? ? ? | l ? ? ? ? | l ? ? ? ? | ? ?];
      try congruence.
    - assert (k = FirstAirRequest) by congruence. subst k. now split.
    - assert (k = AirRequest l) by congruence. subst k. now split. }
  destruct V as [V L]. split; [| exact L].
  destruct k as [| | l]; [congruence | |]; cbn [settle captured];
    unfold unhandled;
    now rewrite (processAirTrafficData_swaps _ _ _ markers G V).
Qed.

(** A successful cycle, from a world in some phase of the chain. *)
Lemma cycle_success (w : World) (i : nat) (k : Request) (data : Value)
    (markers : list Feature) :
  Phase w -> nth_error (requests w) i = Some k -> k <> IpRequest ->
  getAirplaneMarkers data = Ok markers ->
  let new := new_layer markers w in
  let w' := swapped markers (captured k) (with_requests [] w) in
  step w (Settle i (Ok data)) = Some w'
  /\ calls w' = calls w ++ [RemoveLayer (captured k); AddLayer new]
  /\ layers w = match captured k with Some old => [old] | None => [] end
  /\ layers w' = [new]
  /\ refreshTimers (timers w') = [new].
Proof.
  intros P E N G. cbv zeta.
  destruct (phase_requests w i k P E) as (_ & R & Rm & T).
  destruct (settle_success w k data markers P R N G) as [S L].
  destruct (swapped_fields markers (captured k) (with_requests [] w))
    as (_ & Tm & _ & Ly & Cl).
  split; [cbn [step]; now rewrite E, Rm, S |].
  split; [exact Cl |]. split; [exact L |].
  split.
  - rewrite Ly. fields. rewrite L.
    destruct (captured k) as [old |]; [| reflexivity].
    cbn [remove_layer]. now rewrite same_layer_refl.
  - rewrite Tm, refreshTimers_app. fields. now rewrite T.
Qed.

Lemma step_layers (w w' : World) (ev : Event) :
  Phase w -> step w ev = Some w' ->
  layers w' = layers w
  \/ exists data markers,
       getAirplaneMarkers data = Ok markers
       /\ layers w' = [new_layer markers w].
Proof.
  intros P S. destruct ev as [i r | i | icon coordinate | showPointer |].
  - cbn [step] in S.
    destruct (nth_error (requests w) i) as [k |] eqn:E; [| discriminate].
    destruct (phase_requests w i k P E) as (_ & R & Rm & T).
    rewrite Rm in S. injection S as <-.
    destruct k as [| | l].
    + left. cbn [settle].
      destruct r as [geoIpData | e]; [| reflexivity].
      destruct (getUserCoordinates geoIpData); reflexivity.
    + destruct r as [data | e]; [| left; reflexivity].
      destruct (getAirplaneMarkers data) as [markers | e] eqn:G.
      * right. exists data, markers. split; [exact G |].
        destruct (cycle_success w i FirstAirRequest data markers P E
                    ltac:(discriminate) G) as (S & _ & _ & L & _).
        replace (settle FirstAirRequest (Ok data) (with_requests [] w))
          with (swapped markers None (with_requests [] w)); [exact L |].
        unfold step in S. rewrite E, Rm in S. now injection S.
      * left. cbn [settle].
        now rewrite (processAirTrafficData_throws _ _ _ e G).
    + destruct r as [data | e]; [| left; reflexivity].
      destruct (getAirplaneMarkers data) as [markers | e] eqn:G.
      * right. exists data, markers. split; [exact G |].
        destruct (cycle_success w i (AirRequest l) data markers P E
                    ltac:(discriminate) G) as (S & _ & _ & L & _).
        replace (settle (AirRequest l) (Ok data) (with_requests [] w))
          with (swapped markers (Some l) (with_requests [] w)); [exact L |].
        unfold step in S. rewrite E, Rm in S. now injection S.
      * left. cbn [settle]. unfold unhandled.
        now rewrite (processAirTrafficData_throws _ _ _ e G).
  - left. cbn [step] in S.
    destruct (nth_error (timers w) i) as [[ms [l |]] |]; [| | discriminate];
      now injection S as <-.
  - left. cbn [step] in S. destruct (view w); [| discriminate].
    injection S as <-. apply click_same_chain.
  - left. cbn [step] in S. destruct (view w); [| discriminate].
    now injection S as <-.
  - left. cbn [step] in S. destruct (view w); [| discriminate].
    now injection S as <-.
Qed.

Lemma rendered_run (evs : list Event) :
  forall w w',
    Phase w -> rendered_passed_gate w -> run w evs = Some w' ->
    rendered_passed_gate w'.
Proof.
  induction evs as [| ev evs IH]; intros w w' P I R; cbn [run] in R.
  - now injection R as <-.
  - destruct (step w ev) as [w1 |] eqn:S; [| discriminate].
    apply (IH w1 w'); [eapply phase_step; eassumption | | exact R].
    unfold rendered_passed_gate.
    destruct (step_layers _ _ _ P S) as [-> | (data & markers & G & ->)];
      [exact I |].
    constructor; [| constructor].
    now apply getAirplaneMarkers_passed_gate with data.
Qed.

(** C5, amended: every entity on the map, in every world the page can
    reach, comes from a raw record whose latitude, longitude and heading
    fields are all truthy; its position is the numeric coercion of fields
    5 and 6, which is that number, not [NaN] and not zero, whenever the
    field is a number; its heading is the conversion of field 10.  So no
    record with a falsy field is ever rendered. *)
Theorem rendered_entities_passed_the_gate (evs : list Event) (w : World)
    (layer : Layer) (icon : Feature) :
  run startup evs = Some w ->
  In layer (layers w) -> In icon (features layer) ->
  passed_gate icon.
Proof.
  intros R Hl Hi.
  assert (I : rendered_passed_gate w).
  { apply (rendered_run evs startup w startup_phase); [constructor | exact R]. }
  unfold rendered_passed_gate in I. rewrite Forall_forall in I.
  specialize (I layer Hl). rewrite Forall_forall in I. now apply I.
Qed.

Lemma rendered_entities_passed_the_gate_witness :
  passed_gate (entity (scenario (Number 10.5) (Number 20.25) (Number 45.5))).
Proof.
  eapply (rendered_entities_passed_the_gate
            [Settle 0 (Ok geo);
             Settle 0 (Ok (payload
                             [scenario (Number 10.5) (Number 20.25)
                                (Number 45.5)]))]).
  - vm_compute. reflexivity.
  - left. reflexivity.
  - left. reflexivity.
Defined.

(** A number that is not finite passes the gate as well: the payload text
    [1e999] reads as [Infinity]. *)
Example infinite_position_passes_the_gate :
  planeIconOf
    (Array (scenario (Number (StringToNumber "1e999")) (Number 20.25)
              (Number 45.5)))
  = Ok (Some (entity (scenario (Number infinity) (Number 20.25) (Number 45.5)))).
Proof. vm_compute. reflexivity. Qed.

(** C5 as stated fails: a record whose longitude is a truthy string that
    is no number passes the gate, and its entity is rendered with a
    position that is not a finite number. *)
Lemma non_numeric_position_is_rendered :
  exists w layer icon,
    run startup
      [Settle 0 (Ok geo);
       Settle 0 (Ok (payload
                       [scenario (String "abc"%string) (Number 20.25)
                          (Number 45.5)]))]
    = Some w
    /\ In layer (layers w) /\ In icon (features layer)
    /\ is_finite (fst (lonLat icon)) = false.
Proof.
  eexists. eexists. eexists.
  split; [vm_compute; reflexivity |].
  split; [left; reflexivity |].
  split; [left; reflexivity |].
  vm_compute. reflexivity.
Qed.

(** C7, amended: in every refresh cycle the render-swap first detaches
    the layer of the previous cycle and then attaches the layer of the new
    snapshot; before the swap the map holds exactly the previous layer (none
    in the first cycle), after it exactly the new one. *)
Theorem swap_detaches_then_attaches (evs : list Event) (w : World) (i : nat)
    (k : Request) (data : Value) (markers : list Feature) :
  run startup evs = Some w ->
  nth_error (requests w) i = Some k -> k <> IpRequest ->
  getAirplaneMarkers data = Ok markers ->
  exists w' new,
    step w (Settle i (Ok data)) = Some w'
    /\ features new = markers
    /\ calls w' = calls w ++ [RemoveLayer (captured k); AddLayer new]
    /\ layers w = match captured k with Some old => [old] | None => [] end
    /\ layers w' = [new]
    /\ refreshTimers (timers w') = [new].
Proof.
  intros R E N G.
  pose proof (phase_run evs startup w startup_phase R) as P.
  destruct (cycle_success w i k data markers P E N G) as (S & C & L & L' & T).
  exists (swapped markers (captured k) (with_requests [] w)),
         (new_layer markers w).
  now repeat split.
Qed.

Lemma swap_detaches_then_attaches_witness :
  exists w old,
    run startup second_fetch = Some w
    /\ nth_error (requests w) 0 = Some (AirRequest old)
    /\ exists w' new,
         step w (Settle 0 (Ok second_payload)) = Some w'
         /\ features new
            = [entity (scenario (Number 11.5) (Number 21.25) (Number 90))]
         /\ calls w' = calls w ++ [RemoveLayer (Some old); AddLayer new]
         /\ layers w = [old]
         /\ layers w' = [new]
         /\ refreshTimers (timers w') = [new].
Proof.
  eexists. eexists.
  split; [vm_compute; reflexivity |].
  split; [vm_compute; reflexivity |].
  apply (swap_detaches_then_attaches second_fetch _ 0 (AirRequest _)
           second_payload).
  - vm_compute. reflexivity.
  - vm_compute. reflexivity.
  - discriminate.
  - vm_compute. reflexivity.
Defined.

(** C7 as stated fails: in the second cycle of this run the calls of the
    swap are the removal of the old layer followed by the addition of the
    new one, not the addition followed by the removal. *)
Lemma swap_is_not_attach_then_detach :
  exists w w' old new,
    run startup second_fetch = Some w
    /\ step w (Settle 0 (Ok second_payload)) = Some w'
    /\ layers w = [old] /\ layers w' = [new]
    /\ skipn (List.length (calls w)) (calls w')
       = [RemoveLayer (Some old); AddLayer new]
    /\ skipn (List.length (calls w)) (calls w')
       <> [AddLayer new; RemoveLayer (Some old)].
Proof.
  eexists. eexists. eexists. eexists.
  split; [vm_compute; reflexivity |].
  split; [vm_compute; reflexivity |].
  split; [vm_compute; reflexivity |].
  split; [vm_compute; reflexivity |].
  split; [vm_compute; reflexivity |].
  vm_compute. discriminate.
Qed.

(** C6: once a telemetry fetch is rejected, or the transform throws on
    its payload, nothing of the refresh chain is pending any more, and
    whatever happens afterwards issues no further request: no refresh
    timer is armed again and the count of telemetry fetches stays. *)
Theorem failure_stops_refreshing (evs : list Event) (w : World) (i : nat)
    (k : Request) (r : Result Value) (later : list Event) (w' : World) :
  run startup evs = Some w ->
  nth_error (requests w) i = Some k ->
  fails k r = true ->
  run w (Settle i r :: later) = Some w' ->
  refreshTimers (timers w') = [] /\ requests w' = []
  /\ calls w' = calls w /\ airFetches w' = airFetches w.
Proof.
  intros R E F L.
  pose proof (phase_run evs startup w startup_phase R) as P.
  destruct (phase_requests w i k P E) as (_ & _ & Rm & T).
  cbn [run step] in L. rewrite E, Rm in L.
  destruct (settle_failure w k r T F) as [H C].
  destruct (halted_run later _ _ H L) as [[Rq Tm] C'].
  unfold airFetches. repeat split; congruence.
Qed.

Lemma failure_stops_refreshing_witness :
  exists w w',
    run startup second_fetch = Some w
    /\ run w [Settle 0 (Ok bad_payload);
              Fire 0; Click None (0, 0)%float; Fire 0; CloseClick]
       = Some w'
    /\ refreshTimers (timers w') = [] /\ requests w' = []
    /\ calls w' = calls w /\ airFetches w' = airFetches w.
Proof.
  eexists. eexists.
  split; [vm_compute; reflexivity |].
  split; [vm_compute; reflexivity |].
  eapply (failure_stops_refreshing second_fetch _ 0 _
            (Ok bad_payload)
            [Fire 0; Click None (0, 0)%float; Fire 0; CloseClick]).
  - vm_compute. reflexivity.
  - vm_compute. reflexivity.
  - vm_compute. reflexivity.
  - vm_compute. reflexivity.
Defined.

(** * Further properties of the script *)

(** ** When the transform throws *)

Lemma GetIndex_nullish (v : Value) (i : nat) :
  GetIndex v i = (if nullish v then Throw TypeError else GetIndex v i)
  /\ (nullish v = false -> exists x, GetIndex v i = Ok x).
Proof.
  destruct v; cbn; split; try reflexivity; try discriminate; intros _;
    eexists; reflexivity.
Qed.

Lemma planeIconFrom_returns (state lon lat rotation : Value) :
  if negb (ToBoolean lat) || negb (ToBoolean lon) || negb (ToBoolean rotation)
     || (printable lon && printable lat && printable rotation)
  then exists parsed, planeIconFrom state lon lat rotation = Ok parsed
  else planeIconFrom state lon lat rotation = Throw TypeError.
Proof.
  unfold planeIconFrom.
  destruct (negb _ || negb _ || negb _); cbn [orb];
    [eexists; reflexivity |].
  rewrite (ToNumber_returns lon), (ToNumber_returns lat),
    (decimalDegreesToRadians_returns rotation).
  destruct (printable lon); [| reflexivity].
  destruct (printable lat); [| reflexivity].
  destruct (printable rotation); [| reflexivity].
  eexists. reflexivity.
Qed.

Lemma planeIconOf_parses (state : Value) :
  if parses state then exists parsed, planeIconOf state = Ok parsed
  else planeIconOf state = Throw TypeError.
Proof.
  destruct (nullish state) eqn:N.
  - destruct state; try discriminate; reflexivity.
  - unfold parses.
    destruct (proj2 (GetIndex_nullish state 5) N) as [lon E5].
    destruct (proj2 (GetIndex_nullish state 6) N) as [lat E6].
    destruct (proj2 (GetIndex_nullish state 10) N) as [heading E10].
    rewrite E5, E6, E10.
    replace (planeIconOf state) with (planeIconFrom state lon lat heading)
      by (unfold planeIconOf, planeIconFrom; now rewrite E5, E6, E10).
    apply planeIconFrom_returns.
Qed.

Lemma forEach_parses (states : list Value) :
  forall markers,
    if forallb parses states
    then exists result, forEach states markers = Ok result
    else forEach states markers = Throw TypeError.
Proof.
  induction states as [| state states IH]; intros markers; cbn [forallb forEach].
  - eexists. reflexivity.
  - pose proof (planeIconOf_parses state) as P.
    destruct (parses state); cbn [andb].
    + destruct P as [parsed ->]. cbn [bind]. apply IH.
    + now rewrite P.
Qed.

(** X1: the transform returns markers exactly when the payload has a
    [states] array on each record of which the callback returns: the
    record is not [null] or [undefined], and either one of its three
    fields is falsy or all three coerce to numbers.  In every other case
    it throws a [TypeError], and nothing of what it collected before the
    throw is returned. *)
Theorem transform_succeeds_iff (flightData : Value) :
  ((exists markers, getAirplaneMarkers flightData = Ok markers)
   <-> exists states,
         GetNamed flightData "states"%string = Ok (Array states)
         /\ forallb parses states = true)
  /\ (forall e, getAirplaneMarkers flightData = Throw e -> e = TypeError).
Proof.
  unfold getAirplaneMarkers. split; [split |].
  - intros [markers E].
    destruct (GetNamed flightData "states") as [states |]; [| discriminate].
    cbn [bind] in E. destruct states as [| | | | | elems |]; try discriminate.
    exists elems. split; [reflexivity |].
    pose proof (forEach_parses elems []) as F.
    destruct (forallb _ elems); [reflexivity | congruence].
  - intros (states & -> & A). cbn [bind].
    pose proof (forEach_parses states []) as F. now rewrite A in F.
  - intros e.
    destruct (GetNamed flightData "states") as [states | e'] eqn:G.
    + cbn [bind]. destruct states as [| | | | | elems |]; try congruence.
      pose proof (forEach_parses elems []) as F.
      destruct (forallb _ elems); [destruct F as [r ->] |]; congruence.
    + cbn [bind]. destruct flightData; cbn in G; congruence.
Qed.

Lemma transform_succeeds_iff_witness :
  (exists markers,
     getAirplaneMarkers
       (withStates [Array (scenario (Number 10.5) (Number 20.25) (Number 45.5));
                    Array (scenario unprintable (Number 0) (Number 45.5));
                    Number 7; String "abc"%string])
     = Ok markers)
  /\ getAirplaneMarkers (withStates []) = Ok []
  /\ ~ (exists markers,
          getAirplaneMarkers (Object [("states"%string, Null)]) = Ok markers)
  /\ ~ (exists markers,
          getAirplaneMarkers
            (withStates
               [Array (scenario (Number 10.5) (Number 20.25) (Number 45.5));
                Null])
          = Ok markers)
  /\ ~ (exists markers,
          getAirplaneMarkers
            (withStates
               [Array (scenario (Number 10.5) (Number 20.25) (Number 45.5));
                Array (scenario unprintable (Number 20.25) (Number 45.5))])
          = Ok markers).
Proof.
  split.
  { apply (proj1 (transform_succeeds_iff _)).
    eexists. split; vm_compute; reflexivity. }
  split; [reflexivity |].
  split; [| split].
  - intros H. apply (proj1 (transform_succeeds_iff _)) in H.
    destruct H as (states & G & _). discriminate.
  - intros H. apply (proj1 (transform_succeeds_iff _)) in H.
    destruct H as (states & G & A). vm_compute in G. injection G as <-.
    discriminate.
  - intros H. apply (proj1 (transform_succeeds_iff _)) in H.
    destruct H as (states & G & A). vm_compute in G. injection G as <-.
    discriminate.
Defined.

(** ** How the transform composes *)

Lemma forEach_app (a b : list Value) :
  forall markers,
    forEach (a ++ b) markers
    = (let* collected := forEach a markers in forEach b collected).
Proof.
  induction a as [| state a IH]; intros markers; cbn [app forEach];
    [reflexivity |].
  destruct (planeIconOf state) as [parsed | e]; cbn [bind];
    [apply IH | reflexivity].
Qed.

Lemma forEach_prefix (states : list Value) :
  forall markers,
    forEach states markers
    = (let* collected := forEach states [] in Ok (markers ++ collected)).
Proof.
  induction states as [| state states IH]; intros markers; cbn [forEach].
  - cbn [bind]. now rewrite app_nil_r.
  - destruct (planeIconOf state) as [[icon |] | e]; cbn [bind];
      [| apply IH | reflexivity].
    rewrite (IH (markers ++ [icon])), (IH ([] ++ [icon])).
    destruct (forEach states []) as [collected | e]; cbn [bind app];
      [| reflexivity].
    now rewrite <- app_assoc.
Qed.

(** X2: the markers of two batches of states put one after the other are
    the markers of the first batch followed by those of the second, and the
    transform throws on the whole exactly when it throws on a part. *)
Theorem transform_of_concatenation (a b : list Value) :
  getAirplaneMarkers (withStates (a ++ b))
  = (let* first := getAirplaneMarkers (withStates a) in
     let* second := getAirplaneMarkers (withStates b) in
     Ok (first ++ second)).
Proof.
  unfold getAirplaneMarkers, withStates. cbn [GetNamed lookup String.eqb bind].
  change (forEach (a ++ b) [] =
          (let* first := forEach a [] in
           let* second := forEach b [] in Ok (first ++ second))).
  rewrite forEach_app.
  destruct (forEach a []) as [first | e]; cbn [bind]; [| reflexivity].
  apply forEach_prefix.
Qed.

(** ** The heading conversion at its edges *)

Lemma abs_opp (x : float) : abs (- x) = abs x.
Proof.
  apply Prim2SF_inj. rewrite !abs_spec, opp_spec.
  now destruct (Prim2SF x).
Qed.

(** X3: the conversion forgets the sign of the heading: a number and its
    opposite give the same angle. *)
Theorem heading_forgets_sign (x : float) :
  decimalDegreesToRadians (Number (- x)) = decimalDegreesToRadians (Number x).
Proof.
  unfold decimalDegreesToRadians, Math_abs. cbn [ToNumber bind].
  now rewrite abs_opp.
Qed.

Lemma Prim2SF_nan (x : float) : is_nan x = true -> Prim2SF x = S754_nan.
Proof. intros H. unfold Prim2SF. now rewrite H. Qed.

Lemma Prim2SF_infinity (x : float) :
  is_infinity x = true -> exists s, Prim2SF x = S754_infinity s.
Proof.
  unfold is_infinity. rewrite eqb_spec, abs_spec.
  replace (Prim2SF infinity) with (S754_infinity false) by reflexivity.
  destruct (Prim2SF x) as [s | s | | s m e]; cbn; try discriminate.
  intros _. now exists s.
Qed.

Lemma degrees_of_zero_count (dd : Value) (absDd : float) :
  Math_abs dd = Ok absDd -> truncate absDd = 0 ->
  decimalDegreesToRadians dd = Ok zero.
Proof.
  intros E H. rewrite (decimalDegreesToRadians_unfold dd absDd E).
  unfold ToInt32. rewrite H. vm_compute. reflexivity.
Qed.

(** X4: a heading whose coercion returns a number that is not finite
    ([NaN], an infinity, a text that is no number) is converted to the
    angle [+0]. *)
Theorem heading_not_finite_is_zero (dd : Value) (n : float) :
  ToNumber dd = Ok n -> is_finite n = false ->
  decimalDegreesToRadians dd = Ok zero.
Proof.
  intros E H. apply (degrees_of_zero_count dd (abs n)).
  { unfold Math_abs. now rewrite E. }
  unfold truncate. rewrite abs_spec.
  unfold is_finite in H. apply negb_false_iff, orb_true_iff in H.
  destruct H as [H | H].
  - now rewrite (Prim2SF_nan _ H).
  - destruct (Prim2SF_infinity _ H) as [s ->]. reflexivity.
Qed.

Lemma heading_not_finite_is_zero_witness :
  decimalDegreesToRadians (String "north"%string) = Ok zero
  /\ decimalDegreesToRadians (Number (StringToNumber "1e999")) = Ok zero
  /\ decimalDegreesToRadians (Object []) = Ok zero.
Proof.
  split; [| split].
  - apply (heading_not_finite_is_zero _ nan); reflexivity.
  - apply (heading_not_finite_is_zero _ infinity); vm_compute; reflexivity.
  - apply (heading_not_finite_is_zero _ nan); reflexivity.
Defined.

Lemma Prim2SF_one : Prim2SF 1 = S754_finite false 4503599627370496 (-52).
Proof. reflexivity. Qed.

Lemma floor_below_one (x : float) :
  (abs x <? 1)%float = true -> floor (abs x) = 0.
Proof.
  intros H. pose proof (truncate_abs x) as [_ N].
  enough (floor (abs x) < 1) by lia.
  rewrite ltb_spec, Prim2SF_one in H. unfold floor in *.
  rewrite abs_spec in *.
  pose proof (Prim2SF_valid x) as V.
  destruct (Prim2SF x) as [s | s | | s m e]; cbn [SFabs] in *;
    try discriminate; try (cbn; lia).
  apply andb_prop in V. destruct V as [C _].
  apply canonical_digits in C. destruct C as [D _].
  pose proof (digits2_pos_bounds m) as [_ B].
  assert (M : Zpos m < 2 ^ 53).
  { eapply Z.lt_le_trans; [exact B | apply Z.pow_le_mono_r; lia]. }
  assert (E : e <= -52).
  { unfold SFltb, SFcompare in H.
    destruct (Z.compare_spec e (-52)); try discriminate; lia. }
  assert (L : Zpos m < 2 ^ Z.max 0 (- e)).
  { unfold SFltb, SFcompare in H.
    destruct (Z.compare_spec e (-52)) as [E' | E' | E']; try discriminate.
    - subst e. rewrite Pos.compare_cont_spec in H.
      destruct (Pos.compare_spec m 4503599627370496) as [Cm | Cm | Cm];
        try discriminate.
      apply Pos2Z.pos_lt_pos in Cm. cbn. clear - Cm. lia.
    - assert (2 ^ 53 <= 2 ^ Z.max 0 (- e)) by (apply Z.pow_le_mono_r; lia).
      lia. }
  cbn [SFfloor cond_Zopp]. replace (Z.max 0 e) with 0 by lia.
  rewrite Z.mul_1_r, Z.div_small; lia.
Qed.

(** X5: a heading of less than one degree in absolute value, though it is
    truthy and passes the gate, is converted to the angle [+0]. *)
Theorem heading_below_one_degree_is_zero (dd : Value) (absDd : float) :
  Math_abs dd = Ok absDd -> (absDd <? 1)%float = true ->
  decimalDegreesToRadians dd = Ok zero.
Proof.
  intros E H. apply (degrees_of_zero_count dd absDd E).
  apply Math_abs_ok in E. destruct E as (n & _ & ->).
  destruct (truncate_abs n) as [-> _].
  now apply floor_below_one.
Qed.

Lemma heading_below_one_degree_is_zero_witness :
  ToBoolean (Number 0.5) = true
  /\ decimalDegreesToRadians (Number 0.5) = Ok zero
  /\ decimalDegreesToRadians (Number (-0.75)) = Ok zero.
Proof.
  split; [reflexivity |].
  split.
  - apply (heading_below_one_degree_is_zero _ 0.5); reflexivity.
  - apply (heading_below_one_degree_is_zero _ 0.75); reflexivity.
Defined.

(** ** The popup *)

Lemma GetIndex_ok_not_nullish (v x : Value) (i : nat) :
  GetIndex v i = Ok x -> nullish v = false.
Proof. destruct v; cbn; congruence. Qed.

Lemma setPopupContent_fields (airplaneData callsign from latitude longitude
    : Value) (w : World) :
  GetIndex airplaneData 1 = Ok callsign ->
  GetIndex airplaneData 2 = Ok from ->
  GetIndex airplaneData 5 = Ok latitude ->
  GetIndex airplaneData 6 = Ok longitude ->
  setPopupContent airplaneData w
  = if printable callsign && printable from
       && printable latitude && printable longitude
    then (Ok tt,
          with_popupBody
            [("Callsign"%string, callsign); ("From"%string, from);
             ("Latitude"%string, latitude); ("Longitude"%string, longitude)]
            w)
    else (Throw TypeError, w).
Proof.
  intros E1 E2 E5 E6. unfold setPopupContent, ToString.
  rewrite E1, E2, E5, E6. cbn [bind].
  destruct (printable callsign); [| reflexivity]. cbn [bind].
  destruct (printable from); [| reflexivity]. cbn [bind].
  destruct (printable latitude); [| reflexivity]. cbn [bind].
  destruct (printable longitude); reflexivity.
Qed.

Lemma setPopupContent_showable (airplaneData : Value) (w : World) :
  fst (setPopupContent airplaneData w)
  = (if showable airplaneData then Ok tt else Throw TypeError)
  /\ (showable airplaneData = false ->
      snd (setPopupContent airplaneData w) = w).
Proof.
  destruct (nullish airplaneData) eqn:N.
  - destruct airplaneData; try discriminate; now split.
  - destruct (proj2 (GetIndex_nullish airplaneData 1) N) as [a Ea].
    destruct (proj2 (GetIndex_nullish airplaneData 2) N) as [b Eb].
    destruct (proj2 (GetIndex_nullish airplaneData 5) N) as [c Ec].
    destruct (proj2 (GetIndex_nullish airplaneData 6) N) as [d Ed].
    rewrite (setPopupContent_fields _ _ _ _ _ w Ea Eb Ec Ed).
    unfold showable. rewrite Ea, Eb, Ec, Ed.
    destruct (printable a && printable b && printable c && printable d);
      now split.
Qed.

(** X6: the click handler completes exactly when nothing is struck, or
    the first struck feature carries a raw vector whose fields 1, 2, 5 and
    6 can be read and printed; otherwise it throws a [TypeError] after the
    overlay has already been moved to the click, and the popup keeps the
    rows it had. *)
Theorem click_completes_iff (icon : option (list Feature))
    (coordinate : Coordinate) (w : World) :
  (fst (click icon coordinate w) = Ok tt
   <-> icon = None
       \/ exists plane rest,
            icon = Some (plane :: rest)
            /\ showable (airplaneData plane) = true)
  /\ (forall e,
        fst (click icon coordinate w) = Throw e ->
        e = TypeError
        /\ overlayPosition (snd (click icon coordinate w)) = Some coordinate
        /\ popupBody (snd (click icon coordinate w)) = popupBody w).
Proof.
  destruct icon as [[| plane rest] |]; cbn [click nth_error].
  - split.
    + split; [discriminate |].
      intros [H | (p & r & H & _)]; discriminate.
    + intros e E. injection E as <-. now repeat split.
  - destruct (setPopupContent_showable (airplaneData plane)
                (with_overlayPosition (Some coordinate) w)) as [F S].
    rewrite F. destruct (showable (airplaneData plane)) eqn:Sh.
    + split; [| discriminate].
      split; [| reflexivity]. intros _. right. now exists plane, rest.
    + rewrite (S eq_refl). split.
      * split; [discriminate |].
        intros [H | (p & r & H & N')]; [discriminate |].
        injection H as <- <-. congruence.
      * intros e E. injection E as <-. now repeat split.
  - split.
    + split; [| reflexivity]. intros _. now left.
    + discriminate.
Qed.

Lemma click_completes_iff_witness :
  fst (click (Some [entity (scenario (Number 10.5) (Number 20.25) (Number 45.5))])
         (1, 2)%float blank) = Ok tt
  /\ overlayPosition
       (snd (click (Some [createPlaneIcon (10.5, 20.25)%float 0%float])
               (1, 2)%float blank))
     = Some (1, 2)%float
  /\ overlayPosition (snd (click (Some []) (1, 2)%float blank))
     = Some (1, 2)%float
  /\ popupBody
       (snd (click
               (Some [entity [Null; unprintable; String "USA"%string; Null;
                              Null; Number 10.5; Number 20.25; Null; Null;
                              Null; Number 45.5]])
               (1, 2)%float blank))
     = popupBody blank.
Proof.
  split.
  { apply (proj1 (click_completes_iff _ _ _)). right.
    eexists. eexists. split; reflexivity. }
  split; [| split].
  - apply (proj2 (click_completes_iff _ (1, 2)%float blank) TypeError).
    reflexivity.
  - apply (proj2 (click_completes_iff _ (1, 2)%float blank) TypeError).
    reflexivity.
  - apply (proj2 (click_completes_iff _ (1, 2)%float blank) TypeError).
    reflexivity.
Defined.

(** X7: in every world the page can reach, a click that strikes an entity
    on the map finds its raw fields 1, 2, 5 and 6, of which 5 and 6 are
    truthy and can be printed; the overlay is placed at the click, and the
    popup shows the four fields when fields 1 and 2 can be printed as
    well, and otherwise the handler throws a [TypeError] and the popup
    keeps its rows. *)
Theorem click_on_rendered_entity (evs : list Event) (w : World)
    (layer : Layer) (icon : Feature) (others : list Feature)
    (coordinate : Coordinate) :
  run startup evs = Some w ->
  In layer (layers w) -> In icon (features layer) ->
  exists callsign from latitude longitude,
    GetIndex (airplaneData icon) 1 = Ok callsign
    /\ GetIndex (airplaneData icon) 2 = Ok from
    /\ GetIndex (airplaneData icon) 5 = Ok latitude
    /\ GetIndex (airplaneData icon) 6 = Ok longitude
    /\ ToBoolean latitude = true /\ ToBoolean longitude = true
    /\ printable latitude = true /\ printable longitude = true
    /\ click (Some (icon :: others)) coordinate w
       = if printable callsign && printable from
         then (Ok tt,
               with_popupBody
                 [("Callsign"%string, callsign); ("From"%string, from);
                  ("Latitude"%string, latitude);
                  ("Longitude"%string, longitude)]
                 (with_overlayPosition (Some coordinate) w))
         else (Throw TypeError, with_overlayPosition (Some coordinate) w).
Proof.
  intros R Hl Hi.
  assert (G : passed_gate icon).
  { assert (I : rendered_passed_gate w)
      by (apply (rendered_run evs startup w startup_phase);
          [constructor | exact R]).
    unfold rendered_passed_gate in I. rewrite Forall_forall in I.
    specialize (I layer Hl). rewrite Forall_forall in I. now apply I. }
  destruct G as (lon & lat & heading & E5 & E6 & _ & T5 & T6 & _ & N5 & N6 & _).
  apply ToNumber_ok_printable in N5, N6.
  pose proof (GetIndex_ok_not_nullish _ _ _ E5) as N.
  destruct (proj2 (GetIndex_nullish (airplaneData icon) 1) N) as [a Ea].
  destruct (proj2 (GetIndex_nullish (airplaneData icon) 2) N) as [b Eb].
  exists a, b, lon, lat.
  repeat (split; [assumption |]).
  cbn [click nth_error].
  rewrite (setPopupContent_fields _ _ _ _ _ _ Ea Eb E5 E6), N5, N6.
  now rewrite !andb_true_r.
Qed.

Lemma click_on_rendered_entity_witness :
  exists w callsign from latitude longitude,
    run startup first_cycle = Some w
    /\ GetIndex (Array (scenario (Number 10.5) (Number 20.25) (Number 45.5))) 1
       = Ok callsign
    /\ GetIndex (Array (scenario (Number 10.5) (Number 20.25) (Number 45.5))) 2
       = Ok from
    /\ GetIndex (Array (scenario (Number 10.5) (Number 20.25) (Number 45.5))) 5
       = Ok latitude
    /\ GetIndex (Array (scenario (Number 10.5) (Number 20.25) (Number 45.5))) 6
       = Ok longitude
    /\ ToBoolean latitude = true /\ ToBoolean longitude = true
    /\ printable latitude = true /\ printable longitude = true
    /\ fst (click
              (Some [entity (scenario (Number 10.5) (Number 20.25)
                               (Number 45.5))])
              (0, 0)%float w)
       = Ok tt.
Proof.
  eexists.
  assert (R : run startup first_cycle = Some ?[w])
    by (vm_compute; reflexivity).
  destruct (click_on_rendered_entity first_cycle _
              (new_layer
                 [entity (scenario (Number 10.5) (Number 20.25) (Number 45.5))]
                 blank)
              (entity (scenario (Number 10.5) (Number 20.25) (Number 45.5)))
              [] (0, 0)%float R)
    as (a & b & c & d & Ea & Eb & Ec & Ed & Tc & Td & Pc & Pd & K).
  - left. reflexivity.
  - left. reflexivity.
  - exists a, b, c, d.
    split; [exact R |]. split; [exact Ea |]. split; [exact Eb |].
    split; [exact Ec |]. split; [exact Ed |]. split; [exact Tc |].
    split; [exact Td |]. split; [exact Pc |]. split; [exact Pd |].
    rewrite K. cbn in Ea, Eb. injection Ea as <-. injection Eb as <-.
    reflexivity.
Defined.

(** ** Independence of inspection and refresh *)

(** X8: a click, a pointer move and the close button leave the refresh
    chain alone: the layers on the map, the pending timers and requests,
    the calls made so far, the loader and the console do not change. *)
Theorem pointer_events_leave_refresh_alone (w w' : World) (ev : Event) :
  is_ui_event ev = true -> step w ev = Some w' ->
  layers w' = layers w /\ timers w' = timers w /\ requests w' = requests w
  /\ calls w' = calls w /\ view w' = view w /\ fresh w' = fresh w
  /\ loader w' = loader w /\ console w' = console w.
Proof.
  intros U S.
  destruct ev as [i r | i | icon coordinate | showPointer |];
    try discriminate; cbn [step] in S;
    (destruct (view w) eqn:V; [| discriminate]); injection S as <-.
  - unfold click, setPopupContent.
    destruct icon as [found |];
      [| repeat split; first [reflexivity | exact V]].
    destruct (nth_error found 0) as [plane |];
      [| repeat split; first [reflexivity | exact V]].
    destruct (bind _ _); repeat split; first [reflexivity | exact V].
  - repeat split; first [reflexivity | exact V].
  - repeat split; first [reflexivity | exact V].
Qed.

Lemma pointer_events_leave_refresh_alone_witness :
  exists w w',
    run startup first_cycle = Some w
    /\ step w (Click None (0, 0)%float) = Some w'
    /\ layers w' = layers w /\ timers w' = timers w
    /\ requests w' = requests w /\ calls w' = calls w /\ view w' = view w
    /\ fresh w' = fresh w /\ loader w' = loader w /\ console w' = console w.
Proof.
  eexists. eexists.
  split; [vm_compute; reflexivity |].
  split; [vm_compute; reflexivity |].
  eapply (pointer_events_leave_refresh_alone _ _ (Click None (0, 0)%float));
    [reflexivity | vm_compute; reflexivity].
Defined.

Lemma processAirTrafficData_popup flightData oldDataLayer w :
  let w' := snd (processAirTrafficData flightData oldDataLayer w) in
  overlayPosition w' = overlayPosition w /\ popupBody w' = popupBody w
  /\ cursor w' = cursor w /\ closerFocused w' = closerFocused w
  /\ console w' = console w.
Proof.
  unfold processAirTrafficData.
  destruct (getAirplaneMarkers flightData); [| now repeat split].
  cbn [getFlightDataOverlay]. fields.
  destruct (view w); now repeat split.
Qed.

(** X9: a telemetry response, whether the cycle succeeds or fails, and a
    timeout leave the popup alone: the overlay stays where it is with the
    rows it shows, so a selection outlives the layer its entity was on. *)
Theorem refresh_leaves_popup_alone (w w' : World) (ev : Event) :
  is_refresh_event w ev = true -> step w ev = Some w' ->
  overlayPosition w' = overlayPosition w /\ popupBody w' = popupBody w
  /\ InspectionState w' = InspectionState w
  /\ cursor w' = cursor w /\ closerFocused w' = closerFocused w.
Proof.
  intros U S. unfold InspectionState.
  destruct ev as [i r | i | icon coordinate | showPointer |];
    try discriminate; cbn [step is_refresh_event] in *.
  - destruct (nth_error (requests w) i) as [k |]; [| discriminate].
    injection S as <-.
    destruct k as [| | l]; [discriminate | |]; cbn [settle];
      unfold unhandled, catch;
      (destruct r as [data | e]; [| now repeat split]).
    + pose proof (processAirTrafficData_popup data None
                    (with_requests (remove_nth i (requests w)) w)) as P.
      cbv zeta in P.
      destruct (processAirTrafficData data None _) as [[u | e] w1];
        cbn [snd] in P; fields;
        destruct P as (-> & -> & -> & -> & _); now repeat split.
    + pose proof (processAirTrafficData_popup data (Some l)
                    (with_requests (remove_nth i (requests w)) w)) as P.
      cbv zeta in P.
      destruct P as (-> & -> & -> & -> & _). now repeat split.
  - destruct (nth_error (timers w) i) as [[ms [l |]] |]; [| | discriminate];
      injection S as <-; now repeat split.
Qed.

Lemma refresh_leaves_popup_alone_witness :
  exists w w',
    run startup
      (second_fetch
       ++ [Click (Some [entity (scenario (Number 10.5) (Number 20.25)
                                  (Number 45.5))]) (3, 4)%float])
    = Some w
    /\ step w (Settle 0 (Ok second_payload)) = Some w'
    /\ overlayPosition w' = Some (3, 4)%float
    /\ InspectionState w' = InspectionState w.
Proof.
  eexists. eexists.
  split; [vm_compute; reflexivity |].
  split; [vm_compute; reflexivity |].
  match goal with
  | |- overlayPosition ?b = _ /\ InspectionState _ = InspectionState ?a =>
      destruct (refresh_leaves_popup_alone a b
                  (Settle 0 (Ok second_payload)))
        as (P & _ & I & _)
  end.
  - vm_compute. reflexivity.
  - vm_compute. reflexivity.
  - split; [rewrite P; reflexivity | exact I].
Defined.

(** ** One cycle and one layer at a time *)

Lemma layers_run (evs : list Event) :
  forall w w',
    Phase w -> (List.length (layers w) <= 1)%nat -> run w evs = Some w' ->
    (List.length (layers w') <= 1)%nat.
Proof.
  induction evs as [| ev evs IH]; intros w w' P L R; cbn [run] in R.
  - now injection R as <-.
  - destruct (step w ev) as [w1 |] eqn:S; [| discriminate].
    apply (IH w1 w'); [eapply phase_step; eassumption | | exact R].
    destruct (step_layers _ _ _ P S) as [-> | (data & markers & _ & ->)];
      [exact L | cbn; lia].
Qed.

(** X10: in every world the page can reach, at most one step of the
    refresh chain is pending (a request in flight or an armed refresh
    timer, never both, never two), at most one layer is on the map, and
    the layer a pending step will detach is the one on the map. *)
Theorem one_cycle_one_layer (evs : list Event) (w : World) :
  run startup evs = Some w ->
  (List.length (requests w) + List.length (refreshTimers (timers w)) <= 1)%nat
  /\ (List.length (layers w) <= 1)%nat
  /\ (forall l,
        In l (refreshTimers (timers w)) \/ In (AirRequest l) (requests w) ->
        layers w = [l]).
Proof.
  intros R.
  pose proof (phase_run evs startup w startup_phase R) as P.
  split; [| split].
  - destruct P as [Rq T ? ? | Rq T ? ? | l Rq T ? ? | l Rq T ? ? | Rq T];
      rewrite Rq, T; cbn; lia.
  - apply (layers_run evs startup w startup_phase); [cbn; lia | exact R].
  - intros l H.
    destruct P as [Rq T ? ? | Rq T ? ? | l' Rq T ? L | l' Rq T ? L | Rq T];
      rewrite Rq, T in H; cbn in H;
      destruct H as [H | H]; try contradiction;
      destruct H as [H | H]; try contradiction; try discriminate;
      congruence.
Qed.

Lemma one_cycle_one_layer_witness :
  exists w,
    run startup second_fetch = Some w
    /\ (List.length (requests w) + List.length (refreshTimers (timers w))
        <= 1)%nat
    /\ (List.length (layers w) <= 1)%nat
    /\ (forall l,
          In l (refreshTimers (timers w)) \/ In (AirRequest l) (requests w) ->
          layers w = [l]).
Proof.
  eexists. split; [vm_compute; reflexivity |].
  apply (one_cycle_one_layer second_fetch). vm_compute. reflexivity.
Defined.

(** ** Startup *)

(** X11: when the geolocation request is rejected, or answers [null], the
    error is logged once and that is the end: the map is never drawn, no
    telemetry is ever fetched, and no event can occur any more. *)
Theorem startup_failure_is_final (r : Result Value) :
  startup_fails r = true ->
  exists w e,
    step startup (Settle 0 r) = Some w
    /\ console w = [e] /\ view w = None /\ airFetches w = 0%nat
    /\ forall ev, step w ev = None.
Proof.
  intros F.
  assert (Dead : forall e ev,
             step (with_console (console startup ++ [e])
                     (with_requests [] startup)) ev = None).
  { intros e [[| i] r' | [| i] | icon coordinate | showPointer |];
      reflexivity. }
  destruct r as [geoIpData | e].
  - destruct geoIpData; try discriminate;
      (eexists; exists TypeError; repeat split; apply Dead).
  - eexists. exists e. repeat split. apply Dead.
Qed.

Lemma startup_failure_is_final_witness :
  exists w e,
    step startup (Settle 0 (Throw NetworkError)) = Some w
    /\ console w = [e] /\ view w = None /\ airFetches w = 0%nat
    /\ forall ev, step w ev = None.
Proof. apply startup_failure_is_final. reflexivity. Defined.



(** ** How a failed cycle shows *)

(** X13: a failure of the first telemetry cycle is logged to the console;
    a failure of any later cycle leaves no trace there. *)
Theorem later_failure_is_silent (w w' : World) (i : nat) (k : Request)
    (r : Result Value) :
  nth_error (requests w) i = Some k -> fails k r = true ->
  step w (Settle i r) = Some w' ->
  match k with
  | AirRequest _ => console w' = console w
  | _ => exists e, console w' = console w ++ [e]
  end.
Proof.
  intros E F S. cbn [step] in S. rewrite E in S. injection S as <-.
  destruct k as [| | l]; [discriminate | |]; cbn [settle fails] in *;
    unfold unhandled;
    (destruct r as [data | e];
     [destruct (getAirplaneMarkers data) as [markers | e] eqn:G;
      [discriminate |];
      rewrite (processAirTrafficData_throws _ _ _ e G) |]);
    try (exists e); reflexivity.
Qed.

Lemma later_failure_is_silent_witness :
  exists w w',
    run startup second_fetch = Some w
    /\ step w (Settle 0 (Ok bad_payload)) = Some w'
    /\ console w' = console w.
Proof.
  eexists. eexists.
  split; [vm_compute; reflexivity |].
  split; [vm_compute; reflexivity |].
  match goal with
  | |- console ?b = console ?a =>
      apply (later_failure_is_silent a b 0
               (AirRequest
                  (new_layer
                     [entity (scenario (Number 10.5) (Number 20.25)
                                (Number 45.5))] blank))
               (Ok bad_payload))
  end; vm_compute; reflexivity.
Defined.

(** ** Timeouts *)

Lemma processAirTrafficData_timers flightData oldDataLayer w :
  let w' := snd (processAirTrafficData flightData oldDataLayer w) in
  timers w' = timers w ++ [(2000, LoaderTimer)]
  \/ exists l,
       timers w'
       = timers w ++ [(2000, LoaderTimer); (AUTOREFRESH, RefreshTimer l)].
Proof.
  unfold processAirTrafficData.
  destruct (getAirplaneMarkers flightData) as [markers |]; [| now left].
  cbn [getFlightDataOverlay]. fields.
  destruct (view w); [| now left].
  right. eexists. cbn [snd]. fields. now rewrite <- app_assoc.
Qed.

Lemma known_timeout_remove (ts : list (Z * Timer)) (i : nat) :
  Forall known_timeout ts -> Forall known_timeout (remove_nth i ts).
Proof.
  intros F. destruct (nth_error ts i) as [t |] eqn:E.
  - destruct (remove_nth_split ts i t E) as (a & b & -> & ->).
    apply Forall_app in F. destruct F as [Fa Fb].
    apply Forall_app. split; [exact Fa | now inversion Fb].
  - revert i E. induction ts as [| x ts IH]; intros [| i] E; cbn in *;
      try discriminate; [constructor | constructor |].
    inversion F; subst. constructor; [assumption | now apply IH].
Qed.

Lemma known_timeout_step (w w' : World) (ev : Event) :
  Forall known_timeout (timers w) -> step w ev = Some w' ->
  Forall known_timeout (timers w').
Proof.
  intros F S.
  assert (Grow : forall flightData old w0,
             timers w0 = timers w ->
             Forall known_timeout
               (timers (snd (processAirTrafficData flightData old w0)))).
  { intros flightData old w0 T.
    destruct (processAirTrafficData_timers flightData old w0) as [-> | [l ->]];
      rewrite T; apply Forall_app; (split; [exact F |]).
    - constructor; [now left | constructor].
    - constructor; [now left |].
      constructor; [right; now exists l | constructor]. }
  destruct ev as [i r | i | icon coordinate | showPointer |]; cbn [step] in S.
  - destruct (nth_error (requests w) i) as [k |]; [| discriminate].
    injection S as <-.
    destruct k as [| | l]; cbn [settle]; unfold unhandled.
    + destruct r as [geoIpData | e]; [| exact F].
      destruct (getUserCoordinates geoIpData); exact F.
    + destruct r as [data | e]; [| exact F].
      specialize (Grow data None
                    (with_requests (remove_nth i (requests w)) w) eq_refl).
      destruct (processAirTrafficData data None _) as [[u | e] w1];
        exact Grow.
    + destruct r as [data | e]; [| exact F]. now apply Grow.
  - destruct (nth_error (timers w) i) as [[ms t] |]; [| discriminate].
    injection S as <-.
    destruct t; cbn [fire]; fields; now apply known_timeout_remove.
  - destruct (view w); [| discriminate]. injection S as <-.
    destruct (click_same_chain icon coordinate w) as (_ & -> & _). exact F.
  - destruct (view w); [| discriminate]. now injection S as <-.
  - destruct (view w); [| discriminate]. now injection S as <-.
Qed.

Lemma known_timeout_run (evs : list Event) :
  forall w w',
    Forall known_timeout (timers w) -> run w evs = Some w' ->
    Forall known_timeout (timers w').
Proof.
  induction evs as [| ev evs IH]; intros w w' F R; cbn [run] in R.
  - now injection R as <-.
  - destruct (step w ev) as [w1 |] eqn:S; [| discriminate].
    eapply IH; [| exact R]. eapply known_timeout_step; eassumption.
Qed.

(** X14: whatever the page has been through, every pending timeout is
    either the loader's, armed for 2000 ms, or a refresh, armed for
    [AUTOREFRESH] = 5000 ms. *)
Theorem pending_timeouts_are_known (evs : list Event) (w : World) (i : nat)
    (ms : Z) (t : Timer) :
  run startup evs = Some w ->
  nth_error (timers w) i = Some (ms, t) ->
  match t with
  | LoaderTimer => ms = 2000
  | RefreshTimer _ => ms = 5000
  end.
Proof.
  intros R E.
  assert (F : Forall known_timeout (timers w))
    by (apply (known_timeout_run evs startup w); [constructor | exact R]).
  rewrite Forall_forall in F.
  destruct (F _ (nth_error_In _ _ E)) as [K | [l K]];
    injection K as -> ->; reflexivity.
Qed.

Lemma pending_timeouts_are_known_witness :
  exists w ms l,
    run startup first_cycle = Some w
    /\ nth_error (timers w) 1 = Some (ms, RefreshTimer l)
    /\ ms = 5000.
Proof.
  eexists. eexists. eexists.
  split; [vm_compute; reflexivity |].
  split; [vm_compute; reflexivity |].
  eapply (pending_timeouts_are_known first_cycle _ 1 _ (RefreshTimer _));
    vm_compute; reflexivity.
Defined.

(** X15: when a refresh timer fires, in any world the page can reach,
    exactly one request for the telemetry is issued and nothing else is
    called; it waits with the layer that is on the map, which stays there
    until the response comes. *)
Theorem refresh_timer_fetches_once (evs : list Event) (w : World) (i : nat)
    (ms : Z) (l : Layer) :
  run startup evs = Some w ->
  nth_error (timers w) i = Some (ms, RefreshTimer l) ->
  exists w',
    step w (Fire i) = Some w'
    /\ requests w = [] /\ requests w' = [AirRequest l]
    /\ calls w' = calls w ++ [HttpGet AIR_DATA_URL]
    /\ airFetches w' = S (airFetches w)
    /\ refreshTimers (timers w') = []
    /\ layers w = [l] /\ layers w' = [l].
Proof.
  intros R E.
  pose proof (phase_run evs startup w startup_phase R) as P.
  destruct P as [? T ? ? | ? T ? ? | ? ? T ? ? | l' Rq T V L | ? T];
    try (now apply refreshTimers_none in E).
  destruct (refreshTimers_remove_refresh _ _ _ _ _ E T) as [-> T'].
  eexists. split; [cbn [step]; rewrite E; reflexivity |].
  cbn [fire]. fields. rewrite Rq.
  repeat split; try assumption.
  unfold airFetches. fields. rewrite filter_app, length_app. cbn. lia.
Qed.

Lemma refresh_timer_fetches_once_witness :
  exists w l,
    run startup first_cycle = Some w
    /\ nth_error (timers w) 1 = Some (5000, RefreshTimer l)
    /\ exists w',
         step w (Fire 1) = Some w'
         /\ requests w = [] /\ requests w' = [AirRequest l]
         /\ calls w' = calls w ++ [HttpGet AIR_DATA_URL]
         /\ airFetches w' = S (airFetches w)
         /\ refreshTimers (timers w') = []
         /\ layers w = [l] /\ layers w' = [l].
Proof.
  eexists. eexists.
  split; [vm_compute; reflexivity |].
  split; [vm_compute; reflexivity |].
  apply (refresh_timer_fetches_once first_cycle _ 1 5000 _);
    vm_compute; reflexivity.
Defined.

(** ** The loader after a failed first cycle *)

Lemma quiet_step (w w' : World) (ev : Event) :
  timers w = [] -> requests w = [] -> step w ev = Some w' ->
  timers w' = [] /\ requests w' = [] /\ loader w' = loader w
  /\ console w' = console w /\ layers w' = layers w /\ calls w' = calls w.
Proof.
  intros T Rq S.
  destruct ev as [i r | i | icon coordinate | showPointer |]; cbn [step] in S.
  - rewrite Rq in S. destruct i; discriminate.
  - rewrite T in S. destruct i; discriminate.
  - destruct (view w); [| discriminate]. injection S as <-.
    unfold click, setPopupContent.
    destruct icon as [found |]; [| now repeat split].
    destruct (nth_error found 0) as [plane |]; [| now repeat split].
    destruct (bind _ _); now repeat split.
  - destruct (view w); [| discriminate]. injection S as <-. now repeat split.
  - destruct (view w); [| discriminate]. injection S as <-. now repeat split.
Qed.

Lemma quiet_run (evs : list Event) :
  forall w w',
    timers w = [] -> requests w = [] -> run w evs = Some w' ->
    loader w' = loader w /\ console w' = console w /\ layers w' = layers w
    /\ calls w' = calls w.
Proof.
  induction evs as [| ev evs IH]; intros w w' T Rq R; cbn [run] in R.
  - injection R as <-. now repeat split.
  - destruct (step w ev) as [w1 |] eqn:S; [| discriminate].
    destruct (quiet_step _ _ _ T Rq S) as (T1 & R1 & L1 & C1 & Y1 & K1).
    destruct (IH _ _ T1 R1 R) as (L2 & C2 & Y2 & K2).
    repeat split; congruence.
Qed.

Lemma startup_proceeds_shape (geoIpData : Value) :
  nullish geoIpData = false ->
  exists coords,
    step startup (Settle 0 (Ok geoIpData))
    = Some (get AIR_DATA_URL FirstAirRequest
              (showLoader "Getting airplane data"
                 (drawInitialMap coords (with_requests [] startup)))).
Proof.
  intros N. destruct geoIpData; try discriminate; eexists; reflexivity.
Qed.

(** X16: when the first telemetry request is rejected, the loader is left
    as it was, showing its last message, for ever: nothing that can happen
    afterwards makes it invisible; the map stays empty and the error is
    the only line on the console. *)
Theorem first_rejection_freezes_loader (geoIpData : Value) (e : Exn)
    (later : list Event) (w : World) :
  nullish geoIpData = false ->
  run startup (Settle 0 (Ok geoIpData) :: Settle 0 (Throw e) :: later)
  = Some w ->
  loader w = {| message := "Getting airplane data"%string;
                invisible := false; hidden := false |}
  /\ layers w = [] /\ console w = [e] /\ airFetches w = 1%nat.
Proof.
  intros N R.
  destruct (startup_proceeds_shape geoIpData N) as (coords & S1).
  cbn [run] in R. rewrite S1 in R.
  cbn [step requests with_requests get showLoader drawInitialMap with_view
       with_overlayPosition with_loader with_calls nth_error app startup
       blank remove_nth settle catch] in R.
  match type of R with
  | run ?w1 later = _ =>
      destruct (quiet_run later w1 w eq_refl eq_refl R) as (-> & -> & -> & K)
  end.
  unfold airFetches. rewrite K. now repeat split.
Qed.

Lemma first_rejection_freezes_loader_witness :
  exists w,
    run startup
      [Settle 0 (Ok geo); Settle 0 (Throw NetworkError);
       Click None (0, 0)%float; CloseClick]
    = Some w
    /\ loader w = {| message := "Getting airplane data"%string;
                     invisible := false; hidden := false |}
    /\ layers w = [] /\ console w = [NetworkError] /\ airFetches w = 1%nat.
Proof.
  eexists. split; [vm_compute; reflexivity |].
  apply (first_rejection_freezes_loader geo NetworkError
           [Click None (0, 0)%float; CloseClick]);
    [reflexivity | vm_compute; reflexivity].
Defined.

(** X17: when the first telemetry payload is one the transform throws on,
    the loader is made invisible all the same and is hidden once its
    timeout fires, although the map has no layer; the error is logged and
    no refresh is pending. *)
Theorem first_bad_payload_hides_loader (geoIpData data : Value) (e : Exn) :
  nullish geoIpData = false ->
  getAirplaneMarkers data = Throw e ->
  exists w w',
    run startup [Settle 0 (Ok geoIpData); Settle 0 (Ok data)] = Some w
    /\ invisible (loader w) = true /\ hidden (loader w) = false
    /\ timers w = [(2000, LoaderTimer)] /\ requests w = []
    /\ layers w = [] /\ console w = [e]
    /\ step w (Fire 0) = Some w'
    /\ hidden (loader w') = true /\ layers w' = [] /\ timers w' = [].
Proof.
  intros N G.
  destruct (startup_proceeds_shape geoIpData N) as (coords & S1).
  cbn [run]. rewrite S1.
  cbn [step requests with_requests get showLoader drawInitialMap with_view
       with_overlayPosition with_loader with_calls nth_error app startup
       blank remove_nth settle].
  rewrite (processAirTrafficData_throws _ _ _ e G).
  eexists. eexists. split; [reflexivity |].
  now repeat split.
Qed.

Lemma first_bad_payload_hides_loader_witness :
  exists w w',
    run startup
      [Settle 0 (Ok geo); Settle 0 (Ok bad_payload)]
    = Some w
    /\ invisible (loader w) = true /\ hidden (loader w) = false
    /\ timers w = [(2000, LoaderTimer)] /\ requests w = []
    /\ layers w = [] /\ console w = [TypeError]
    /\ step w (Fire 0) = Some w'
    /\ hidden (loader w') = true /\ layers w' = [] /\ timers w' = [].
Proof.
  apply (first_bad_payload_hides_loader geo
           bad_payload TypeError); reflexivity.
Defined.
